(** * MangoNeado: verification of [scripts/plot_results.py]

    A shallow embedding of the calibration-result loader, the derived
    metrics (efficiency, overhead, optimal operating point), the three
    chart renderers and the text report writer, followed by the properties
    stated about them.

    Modelling conventions.
    - A pandas table is a list of rows (columns [N], [R_min] as integers,
      [success_rate] as a rational) plus the optional derived column
      [efficiency].  Row labels are positions (the default RangeIndex).
    - A Python float is a [PyFloat]: an exact rational, one of the two
      infinities, or NaN.  Division by zero follows numpy (inf, -inf, nan,
      no exception).  The binary64 rounding, range and signed zero are not
      represented: finite results are exact rationals in lowest terms.
    - The [data] dictionary is an association list in insertion order with
      pairwise different keys; it is the shared mutable object, threaded
      through the effect monad [M] as the [store].
    - Calls to matplotlib, print and file writes are recorded as a trace of
      [Event]s; calls that only set a style (labels, titles, grids,
      legends, layout) carry no data and are left out. *)

From Stdlib Require Import ZArith QArith List String Ascii Bool Lia.
From Stdlib Require Import Permutation Sorted DecimalString.
Import ListNotations.

Local Open Scope string_scope.
Local Open Scope Z_scope.

(* ================================================================== *)
(** ** Python floats *)

Module Float.

Inductive PyFloat : Type :=
| Fin (q : Q)
| PInf
| NInf
| NaN.

Definition of_Z (z : Z) : PyFloat := Fin (inject_Z z).

Definition is_nan (x : PyFloat) : bool :=
  match x with NaN => true | _ => false end.

Definition qsign (q : Q) : Z := Z.sgn (Qnum q).

Definition fadd (a b : PyFloat) : PyFloat :=
  match a, b with
  | NaN, _ | _, NaN => NaN
  | Fin x, Fin y => Fin (Qred (x + y))
  | PInf, NInf | NInf, PInf => NaN
  | PInf, _ | _, PInf => PInf
  | NInf, _ | _, NInf => NInf
  end.

Definition fsub (a b : PyFloat) : PyFloat :=
  match a, b with
  | NaN, _ | _, NaN => NaN
  | Fin x, Fin y => Fin (Qred (x - y))
  | PInf, PInf | NInf, NInf => NaN
  | PInf, _ | _, NInf => PInf
  | NInf, _ | _, PInf => NInf
  end.

(** The infinity of sign [s] (a zero sign cannot occur at the call sites
    that ask for an infinity, and yields NaN as in [inf * 0]). *)
Definition inf_of_sign (s : Z) : PyFloat :=
  match s with
  | Zpos _ => PInf
  | Zneg _ => NInf
  | Z0 => NaN
  end.

Definition fsgn (x : PyFloat) : Z :=
  match x with
  | Fin q => qsign q
  | PInf => 1
  | NInf => -1
  | NaN => 0
  end.

Definition fmul (a b : PyFloat) : PyFloat :=
  match a, b with
  | NaN, _ | _, NaN => NaN
  | Fin x, Fin y => Fin (Qred (x * y))
  | _, _ => inf_of_sign (fsgn a * fsgn b)
  end.

(** numpy true division: a zero divisor gives an infinity of the sign of
    the dividend, or NaN for [0 / 0]; nothing is raised. *)
Definition fdiv (a b : PyFloat) : PyFloat :=
  match a, b with
  | NaN, _ | _, NaN => NaN
  | Fin x, Fin y =>
      if Qeq_bool y 0 then inf_of_sign (qsign x) else Fin (Qred (x / y))
  | Fin _, _ => Fin 0
  | _, Fin y => if Qeq_bool y 0 then a else inf_of_sign (fsgn a * qsign y)
  | _, _ => NaN
  end.

(** Python [==] and [<] on floats: every comparison with NaN is false. *)
Definition feqb (a b : PyFloat) : bool :=
  match a, b with
  | Fin x, Fin y => Qeq_bool x y
  | PInf, PInf | NInf, NInf => true
  | _, _ => false
  end.

Definition fltb (a b : PyFloat) : bool :=
  match a, b with
  | NaN, _ | _, NaN => false
  | Fin x, Fin y => negb (Qle_bool y x)
  | NInf, NInf | PInf, _ | _, NInf => false
  | NInf, _ | _, PInf => true
  end.

End Float.
Export Float.

(* ================================================================== *)
(** ** Text: decimal printing, [str.replace], [str * n], [float(str)] *)

Module Text.

Definition str_of_N (n : N) : string :=
  NilZero.string_of_uint (N.to_uint n).

(** [str(int)] *)
Definition str_of_Z (z : Z) : string :=
  match z with
  | Zneg p => "-" ++ str_of_N (Npos p)
  | _ => str_of_N (Z.to_N z)
  end.

Fixpoint str_repeat (s : string) (n : nat) : string :=
  match n with
  | O => ""
  | S k => s ++ str_repeat s k
  end.

(** Left padding with ['0'] up to [width] characters. *)
Definition zero_pad (width : nat) (s : string) : string :=
  str_repeat "0" (width - String.length s) ++ s.

(** Rounding of the non-negative rational [num / den] to the nearest
    integer, ties to even, as the [f] presentation type does. *)
Definition round_half_even (num : Z) (den : positive) : Z :=
  let q := num / Zpos den in
  let r := num mod Zpos den in
  match 2 * r ?= Zpos den with
  | Lt => q
  | Gt => q + 1
  | Eq => if Z.even q then q else q + 1
  end.

(** [format(x, '.<d>f')] *)
Definition format_f (d : nat) (x : PyFloat) : string :=
  match x with
  | NaN => "nan"
  | PInf => "inf"
  | NInf => "-inf"
  | Fin q =>
      let p := 10 ^ Z.of_nat d in
      let scaled := round_half_even (Z.abs (Qnum q) * p) (Qden q) in
      let body :=
        str_of_N (Z.to_N (scaled / p)) ++
        match d with
        | O => ""
        | _ => "." ++ zero_pad d (str_of_N (Z.to_N (scaled mod p)))
        end in
      if Qnum q <? 0 then "-" ++ body else body
  end.

(** [s.replace(pat, "")] for a non-empty [pat]: every occurrence found
    scanning left to right is dropped; [skip] counts the characters of the
    current occurrence still to drop. *)
Fixpoint remove_all_from (pat : string) (skip : nat) (s : string) : string :=
  match s with
  | EmptyString => EmptyString
  | String c s' =>
      match skip with
      | S k => remove_all_from pat k s'
      | O =>
          if String.prefix pat s
          then remove_all_from pat (String.length pat - 1) s'
          else String c (remove_all_from pat 0 s')
      end
  end.

Definition remove_all (pat s : string) : string := remove_all_from pat 0 s.

Definition ends_with (suf s : string) : bool :=
  String.eqb (String.substring (String.length s - String.length suf)
                               (String.length suf) s) suf
  && (String.length suf <=? String.length s)%nat.

(** [os.path.join(dir, name)] for a relative [name]. *)
Definition path_join (dir name : string) : string :=
  if String.eqb dir "" then name
  else if ends_with "/" dir then dir ++ name
  else dir ++ "/" ++ name.

End Text.
Export Text.


(* ================================================================== *)
(** ** The builtin [float(str)] on ASCII text

    Accepted, after stripping white space: an optional sign followed by
    [inf], [infinity] or [nan] in any letter case, or by a decimal literal
    [digits [. [digits]] | . digits] with an optional exponent, where single
    underscores may separate digits.  Non-ASCII digits and spaces, which
    the builtin also accepts, are outside this model. *)

Module PyParse.

Local Open Scope char_scope.

Definition is_space (c : ascii) : bool :=
  let n := nat_of_ascii c in
  (((9 <=? n) && (n <=? 13)) || ((28 <=? n) && (n <=? 32)))%nat.

Definition digit_of (c : ascii) : option Z :=
  let n := nat_of_ascii c in
  if ((48 <=? n) && (n <=? 57))%nat then Some (Z.of_nat (n - 48)) else None.

Definition lower (c : ascii) : ascii :=
  let n := nat_of_ascii c in
  if ((65 <=? n) && (n <=? 90))%nat then ascii_of_nat (n + 32) else c.

Fixpoint lstrip (s : list ascii) : list ascii :=
  match s with
  | c :: s' => if is_space c then lstrip s' else s
  | [] => []
  end.

Definition strip (s : list ascii) : list ascii :=
  rev (lstrip (rev (lstrip s))).

(** Digits after a first one: [acc] is the value read so far and [n] the
    number of digits read. *)
Fixpoint more_digits (acc : Z) (n : nat) (s : list ascii)
  : Z * nat * list ascii :=
  match s with
  | c :: s' =>
      match digit_of c with
      | Some d => more_digits (acc * 10 + d) (S n) s'
      | None =>
          if Ascii.eqb c "_" then
            match s' with
            | c2 :: s'' =>
                match digit_of c2 with
                | Some d => more_digits (acc * 10 + d) (S n) s''
                | None => (acc, n, s)
                end
            | [] => (acc, n, s)
            end
          else (acc, n, s)
      end
  | [] => (acc, n, s)
  end.

Definition digitpart (s : list ascii) : option (Z * nat * list ascii) :=
  match s with
  | c :: s' =>
      match digit_of c with
      | Some d => Some (more_digits d 1 s')
      | None => None
      end
  | [] => None
  end.

(** Value of the digits with the point removed, number of digits after the
    point, and the unread rest. *)
Definition mantissa (s : list ascii) : option (Z * nat * list ascii) :=
  match digitpart s with
  | Some (i, _, r) =>
      match r with
      | "." :: r' =>
          match digitpart r' with
          | Some (f, k, r'') =>
              (* [f] was accumulated from zero: shift [i] left by [k] digits *)
              Some (i * 10 ^ Z.of_nat k + f, k, r'')
          | None => Some (i, O, r')
          end
      | _ => Some (i, O, r)
      end
  | None =>
      match s with
      | "." :: r' => digitpart r'
      | _ => None
      end
  end.

Definition signed (s : list ascii) : Z * list ascii :=
  match s with
  | "+" :: t => (1%Z, t)
  | "-" :: t => ((-1)%Z, t)
  | _ => (1%Z, s)
  end.

(** The exponent that ends the literal; [None] when the rest is not a
    complete exponent. *)
Definition exponent (s : list ascii) : option Z :=
  match s with
  | [] => Some 0%Z
  | c :: r =>
      if Ascii.eqb (lower c) "e" then
        let '(sg, r1) := signed r in
        match digitpart r1 with
        | Some (e, _, []) => Some (sg * e)
        | _ => None
        end
      else None
  end.

Definition scale10 (m e : Z) : Q :=
  (if 0 <=? e then inject_Z (m * 10 ^ e)
   else Qred (m # Z.to_pos (10 ^ (- e))))%Z.

Definition py_float (s : string) : option PyFloat :=
  let '(sg, t) := signed (strip (list_ascii_of_string s)) in
  let word := string_of_list_ascii (map lower t) in
  if (String.eqb word "inf" || String.eqb word "infinity")%string
  then Some (if (sg <? 0)%Z then NInf else PInf)
  else if String.eqb word "nan" then Some NaN
  else
    match mantissa t with
    | Some (m, k, r) =>
        match exponent r with
        | Some e => Some (Fin (scale10 (sg * m) (e - Z.of_nat k)))
        | None => None
        end
    | None => None
    end.

End PyParse.
Export PyParse.


(* ================================================================== *)
(** ** Tables and series (the part of pandas the script uses) *)

Module Pandas.

(** One observation: the columns [N], [R_min] and [success_rate]. *)
Record Row : Type := mkRow {
  N : Z;
  R_min : Z;
  success_rate : Q
}.

(** A table; [efficiency] is the derived column, present once assigned,
    one value per row. *)
Record DataFrame : Type := mkDF {
  rows : list Row;
  efficiency : option (list PyFloat)
}.

Definition Series := list PyFloat.

Definition read_table (rs : list Row) : DataFrame := mkDF rs None.

(** [df['N']], [df['R_min']], [df['success_rate']] *)
Definition col_N (df : DataFrame) : Series := map (fun r => of_Z (N r)) (rows df).
Definition col_R_min (df : DataFrame) : Series :=
  map (fun r => of_Z (R_min r)) (rows df).
Definition col_success_rate (df : DataFrame) : Series :=
  map (fun r => Fin (Qred (success_rate r))) (rows df).

(** [df[mask]]: the rows where the predicate holds, in order, with the
    matching entries of the derived column. *)
Definition df_filter (p : Row -> bool) (df : DataFrame) : DataFrame :=
  mkDF (filter p (rows df))
       (option_map
          (fun col => map snd (filter (fun rc => p (fst rc))
                                      (combine (rows df) col)))
          (efficiency df)).

Definition df_empty (df : DataFrame) : bool :=
  match rows df with [] => true | _ => false end.

(** [df['efficiency']] once the column exists. *)
Definition col_efficiency (df : DataFrame) : Series :=
  match efficiency df with Some col => col | None => [] end.

(** [df['efficiency'] = col] *)
Definition set_efficiency (col : Series) (df : DataFrame) : DataFrame :=
  mkDF (rows df) (Some col).

(** Element-wise [a / b] and [a * k]. *)
Fixpoint series_div (a b : Series) : Series :=
  match a, b with
  | x :: a', y :: b' => fdiv x y :: series_div a' b'
  | _, _ => []
  end.

Definition series_scale (a : Series) (k : PyFloat) : Series :=
  map (fun x => fmul x k) a.

Definition dropna (s : Series) : Series := filter (fun x => negb (is_nan x)) s.

(** [s.min()], [s.max()], [s.mean()]: NaN entries are skipped, and the
    result is NaN when nothing is left. *)
Definition series_min (s : Series) : PyFloat :=
  match dropna s with
  | [] => NaN
  | x :: t => fold_left (fun m y => if fltb y m then y else m) t x
  end.

Definition series_max (s : Series) : PyFloat :=
  match dropna s with
  | [] => NaN
  | x :: t => fold_left (fun m y => if fltb m y then y else m) t x
  end.

Definition series_sum (s : Series) : PyFloat := fold_left fadd s (Fin 0).

Definition series_mean (s : Series) : PyFloat :=
  match dropna s with
  | [] => NaN
  | t => fdiv (series_sum t) (of_Z (Z.of_nat (List.length t)))
  end.

(** [s.idxmax()]: the position of the first largest entry, NaN skipped;
    [None] when the series is empty or all NaN (pandas raises there, or
    returns a label that the following [.loc] rejects). *)
Fixpoint idxmax_from (i : nat) (best : option (nat * PyFloat)) (s : Series)
  : option nat :=
  match s with
  | [] => option_map fst best
  | x :: t =>
      let best' :=
        if is_nan x then best
        else match best with
             | None => Some (i, x)
             | Some (_, m) => if fltb m x then Some (i, x) else best
             end in
      idxmax_from (S i) best' t
  end.

Definition idxmax (s : Series) : option nat := idxmax_from O None s.

(** [baseline[baseline['N'] == n]['R_min'].values]: the [R_min] of the rows
    whose [N] is [n], in order. *)
Definition r_min_at (n : Z) (df : DataFrame) : list Z :=
  map R_min (filter (fun r => N r =? n) (rows df)).

End Pandas.
Export Pandas.

(* ================================================================== *)
(** ** The ResultSet: a Python [dict] from failure probability to table *)

Module Dict.

Definition ResultSet := list (PyFloat * DataFrame).

Fixpoint dict_get (k : PyFloat) (d : ResultSet) : option DataFrame :=
  match d with
  | [] => None
  | (k', v) :: d' => if feqb k' k then Some v else dict_get k d'
  end.

(** [d[k] = v]: an equal key keeps its place (and the key object first
    inserted), a new key goes last. *)
Fixpoint dict_set (k : PyFloat) (v : DataFrame) (d : ResultSet) : ResultSet :=
  match d with
  | [] => [(k, v)]
  | (k', v') :: d' =>
      if feqb k' k then (k', v) :: d' else (k', v') :: dict_set k v d'
  end.

Definition keys (d : ResultSet) : list PyFloat := map fst d.

(** [sorted(d.items())]: items compare by key first and the keys of a
    dict differ, so the tables are never compared.  A stable insertion
    sort on [<]; it is the result of Python's sort whenever the keys are
    pairwise comparable, that is, no key is NaN. *)
Fixpoint insert_item (x : PyFloat * DataFrame) (l : ResultSet) : ResultSet :=
  match l with
  | [] => [x]
  | y :: l' => if fltb (fst y) (fst x) then y :: insert_item x l' else x :: l
  end.

Fixpoint sorted_items (d : ResultSet) : ResultSet :=
  match d with
  | [] => []
  | x :: d' => insert_item x (sorted_items d')
  end.

(** The dict invariant, together with the restriction above. *)
Definition no_nan_key (d : ResultSet) : Prop :=
  Forall (fun k => is_nan k = false) (keys d).

Definition distinct_keys (d : ResultSet) : Prop :=
  ForallOrdPairs (fun a b => feqb (fst a) (fst b) = false) d.

End Dict.
Export Dict.

(* ================================================================== *)
(** ** Effects: the shared [data] object, the output trace, exceptions *)

Module Effects.

Inductive Axes : Type := Plt | Ax1 | Ax2.

Inductive Event : Type :=
| Print (line : string)
| Plot (ax : Axes) (xs ys : Series) (label : option string)
| Scatter (xs ys : Series)
| AxVSpan (lo hi : PyFloat)
| AxVLine (x : PyFloat)
| AxHLine (y : PyFloat)
| FillBetween (xs lo hi : Series)
| Annotate (x y : PyFloat) (s : string)
| SaveFig (path : string)
| OpenW (path : string)
| FWrite (text : string).

Inductive Exn : Type :=
| IndexError
| ValueError
| ReadError
| SystemExit (code : Z).

Inductive Outcome (A : Type) : Type :=
| Returned (a : A)
| Raised (e : Exn).
Arguments Returned {A} a.
Arguments Raised {A} e.

Record World : Type := mkWorld {
  store : ResultSet;
  trace : list Event
}.

Definition M (A : Type) : Type := World -> Outcome A * World.

Definition ret {A} (a : A) : M A := fun w => (Returned a, w).

Definition bind {A B} (c : M A) (k : A -> M B) : M B :=
  fun w =>
    match c w with
    | (Returned a, w') => k a w'
    | (Raised e, w') => (Raised e, w')
    end.

Definition raise {A} (e : Exn) : M A := fun w => (Raised e, w).

Definition emit (ev : Event) : M unit :=
  fun w => (Returned tt, mkWorld (store w) (trace w ++ [ev])).

Definition get_data : M ResultSet := fun w => (Returned (store w), w).

Definition set_data (d : ResultSet) : M unit :=
  fun w => (Returned tt, mkWorld d (trace w)).

Definition when (b : bool) (c : M unit) : M unit := if b then c else ret tt.

Fixpoint for_each {A} (l : list A) (body : A -> M unit) : M unit :=
  match l with
  | [] => ret tt
  | x :: l' => bind (body x) (fun _ => for_each l' body)
  end.

Definition outcome {A} (r : Outcome A * World) : Outcome A := fst r.
Definition final {A} (r : Outcome A * World) : World := snd r.



Fixpoint written (tr : list Event) : list string :=
  match tr with
  | [] => []
  | FWrite s :: t => s :: written t
  | _ :: t => written t
  end.

Definition file_content (tr : list Event) : string :=
  String.concat "" (written tr).

End Effects.
Export Effects.

Notation "x <- c ;; k" := (bind c (fun x => k))
  (at level 61, c at next level, right associativity).
Notation "c ;; k" := (bind c (fun _ => k))
  (at level 61, right associativity).

Definition nl : string := String (ascii_of_nat 10) "".
Definition print (s : string) : M unit := emit (Print s).
Definition write (s : string) : M unit := emit (FWrite s).

(** The validity cap on [R_min] (the script's literal 20). *)
Definition cap : Z := 20.
Definition within_cap (r : Row) : bool := R_min r <=? cap.
Definition above_cap (r : Row) : bool := cap <? R_min r.

Definition baseline_key : PyFloat := Fin 0.

(* ================================================================== *)
(** ** Loader *)

(** A results directory: file names with what [pd.read_csv] makes of each
    file (a table, or an exception).  [glob] yields the paths in an order
    of its own; all of them share the directory part, so sorting the paths
    sorts the names, and [os.path.basename] gives the name back. *)
Definition Directory := list (string * Outcome DataFrame).

Definition glob_pattern_match (name : string) : bool :=
  String.prefix "r_vs_n_B" name && ends_with ".csv" name.

Definition glob_csv (dir : Directory) : list string :=
  map fst (filter (fun f => glob_pattern_match (fst f)) dir).

Fixpoint insert_name (x : string) (l : list string) : list string :=
  match l with
  | [] => [x]
  | y :: l' => if String.ltb y x then y :: insert_name x l' else x :: l
  end.

Fixpoint sorted_names (l : list string) : list string :=
  match l with
  | [] => []
  | x :: l' => insert_name x (sorted_names l')
  end.

Definition read_csv (dir : Directory) (name : string) : M DataFrame :=
  match find (fun f => String.eqb (fst f) name) dir with
  | Some (_, Returned df) => ret df
  | Some (_, Raised e) => raise e
  | None => raise ReadError
  end.

(** [filename.replace("r_vs_n_B", "").replace(".csv", "")] *)
Definition b_str_of (filename : string) : string :=
  remove_all ".csv" (remove_all "r_vs_n_B" filename).

Fixpoint load_loop (dir : Directory) (files : list string) (data : ResultSet)
  : M ResultSet :=
  match files with
  | [] => ret data
  | filename :: rest =>
      match py_float (b_str_of filename) with
      | None =>
          print ("Advertencia: No se pudo extraer B de " ++ filename) ;;
          load_loop dir rest data
      | Some b_value =>
          df <- read_csv dir filename ;;
          print ("✓ Cargado: " ++ filename ++ " (" ++
                 str_of_N (N.of_nat (List.length (rows df))) ++ " puntos)") ;;
          load_loop dir rest (dict_set b_value df data)
      end
  end.

(** [None] is Python's [None]. *)
Definition load_calibration_data (results_dir : string) (dir : Directory)
  : M (option ResultSet) :=
  let csv_files := glob_csv dir in
  match csv_files with
  | [] =>
      print ("Error: No se encontraron archivos CSV en " ++ results_dir) ;;
      ret None
  | _ =>
      data <- load_loop dir (sorted_names csv_files) [] ;;
      ret (Some data)
  end.

(* ================================================================== *)
(** ** Derived metrics *)

(** [df['N'] / df['R_min']] *)
Definition efficiency_of (df : DataFrame) : Series :=
  series_div (col_N df) (col_R_min df).

(** [((r_with_b - r_baseline) / r_baseline) * 100] *)
Definition overhead_pct (r_with_b r_baseline : Z) : PyFloat :=
  fmul (fdiv (fsub (of_Z r_with_b) (of_Z r_baseline)) (of_Z r_baseline))
       (of_Z 100).

(** The loop over [df_b.iterrows()]: for each row whose [N] occurs in the
    baseline, the pair appended to [n_common] and [overhead]. *)
Fixpoint overhead_rows (baseline_data : DataFrame) (rs : list Row)
  : list (Z * PyFloat) :=
  match rs with
  | [] => []
  | row :: rest =>
      let n := N row in
      let r_with_b := R_min row in
      match r_min_at n baseline_data with
      | r_baseline :: _ =>
          (n, overhead_pct r_with_b r_baseline)
            :: overhead_rows baseline_data rest
      | [] => overhead_rows baseline_data rest
      end
  end.

Definition overhead_series (baseline_data df_b : DataFrame) : Series :=
  map snd (overhead_rows baseline_data (rows df_b)).

Definition n_common (baseline_data df_b : DataFrame) : Series :=
  map (fun p => of_Z (fst p)) (overhead_rows baseline_data (rows df_b)).

(** [idx = df['efficiency'].idxmax()] followed by [df.loc[idx, ...]]: the
    row at the first largest efficiency with that efficiency.  The labels
    of a filtered table are pairwise different, so looking the label up is
    taking the row at the position found. *)
Definition loc_idxmax (df : DataFrame) : option (Row * PyFloat) :=
  match efficiency df with
  | Some eff =>
      match idxmax eff with
      | Some i => nth_error (combine (rows df) eff) i
      | None => None
      end
  | None => None
  end.

(* ================================================================== *)
(** ** Chart renderers *)

Definition plot_r_vs_n_comparison (output_dir : string) : M unit :=
  data <- get_data ;;
  for_each (sorted_items data) (fun '(b_value, df) =>
    let valid_df := df_filter within_cap df in
    emit (Plot Plt (col_N valid_df) (col_R_min valid_df)
               (Some ("B = " ++ format_f 3 b_value))) ;;
    let failed_df := df_filter above_cap df in
    when (negb (df_empty failed_df))
         (emit (Scatter (col_N failed_df)
                        (repeat (of_Z 20) (List.length (rows failed_df)))))) ;;
  match data with
  | (_, first_df) :: _ =>
      let n_min := series_min (col_N first_df) in
      let n_range := fsub (series_max (col_N first_df)) n_min in
      emit (AxVSpan n_min (fadd n_min (fmul n_range (Fin (3 # 10)))))
  | [] => ret tt
  end ;;
  let output_file := path_join output_dir "r_vs_n_comparison.png" in
  emit (SaveFig output_file) ;;
  print ("✓ Guardado: " ++ output_file).

Definition plot_cost_effectiveness (output_dir : string) : M unit :=
  data <- get_data ;;
  match dict_get baseline_key data with
  | None => print "Advertencia: No hay datos con B=0.0"
  | Some df0 =>
      let df := set_efficiency (efficiency_of df0) df0 in
      set_data (dict_set baseline_key df data) ;;
      emit (Plot Ax1 (col_N df) (col_R_min df) (Some "R mínimo")) ;;
      match rows df with
      | [] => raise IndexError
      | first :: _ =>
          let ideal_ratio := fdiv (of_Z (R_min first)) (of_Z (N first)) in
          emit (Plot Ax1 (col_N df) (series_scale (col_N df) ideal_ratio)
                     (Some "Escalado lineal ideal")) ;;
          emit (FillBetween (col_N df) (col_R_min df)
                            (series_scale (col_R_min df) (Fin (6 # 5)))) ;;
          emit (Plot Ax2 (col_N df) (col_efficiency df) None) ;;
          match loc_idxmax df with
          | None => raise ValueError
          | Some (best, optimal_eff) =>
              let optimal_n := N best in
              let optimal_r := R_min best in
              emit (AxVLine (of_Z optimal_n)) ;;
              emit (Annotate (of_Z optimal_n)
                             (fmul optimal_eff (Fin (21 # 20)))
                             ("Óptimo: N=" ++ str_of_Z optimal_n ++
                              ", R=" ++ str_of_Z optimal_r)) ;;
              let output_file := path_join output_dir "cost_effectiveness.png" in
              emit (SaveFig output_file) ;;
              print ("✓ Guardado: " ++ output_file)
          end
      end
  end.

Definition sample_n_values : list Z := [10; 20; 30; 40; 50].

(** [r_values] for one [n_target]: per table in key order, the [R_min] of
    the first row with that [N], or NaN. *)
Definition r_values_at (n_target : Z) (items : ResultSet) : Series :=
  map (fun '(_, df) =>
         match r_min_at n_target df with
         | r :: _ => of_Z r
         | [] => NaN
         end) items.

(** [data[b]] for [b] ranging over the sorted keys of [data] is the table
    stored under [b]: the loops below run over the sorted items. *)

(** Subplot 1: [R_min] against the failure probability, one curve per
    sample [N]. *)
Definition sample_panel (data : ResultSet) : M unit :=
  let items := sorted_items data in
  let b_values := keys items in
  match data with
  | [] => ret tt
  | _ =>
      for_each sample_n_values (fun n_target =>
        let r_values := r_values_at n_target items in
        when (negb (forallb is_nan r_values))
             (emit (Plot Ax1 b_values r_values
                         (Some ("N=" ++ str_of_Z n_target)))))
  end.

(** Subplot 2: the overhead of every table with a non-zero key over the
    baseline. *)
Definition overhead_panel (data : ResultSet) : M unit :=
  match dict_get baseline_key data with
  | Some baseline_data =>
      for_each (sorted_items data) (fun '(b, df_b) =>
        if feqb b baseline_key then ret tt
        else
          let overhead := overhead_series baseline_data df_b in
          match overhead with
          | [] => ret tt
          | _ => emit (Plot Ax2 (n_common baseline_data df_b) overhead
                            (Some ("B=" ++ format_f 3 b)))
          end) ;;
      emit (AxHLine (Fin 0))
  | None => ret tt
  end.

Definition plot_redundancy_analysis (output_dir : string) : M unit :=
  data <- get_data ;;
  sample_panel data ;;
  overhead_panel data ;;
  let output_file := path_join output_dir "redundancy_analysis.png" in
  emit (SaveFig output_file) ;;
  print ("✓ Guardado: " ++ output_file).

(* ================================================================== *)
(** ** Report writer *)

Definition rule70 : string := str_repeat "=" 70.

Definition report_header : list string :=
  [ rule70 ++ nl;
    " MangoNeado - Reporte de Análisis de Calibración" ++ nl;
    rule70 ++ nl ++ nl ].

(** The writes of one pass of the loop over [sorted(data.items())]. *)
Definition table_section (b_value : PyFloat) (df : DataFrame) : list string :=
  [ nl ++ "--- Probabilidad de Falla B = " ++ format_f 3 b_value ++ " ---" ++ nl;
    "  Rango de mangos (N): " ++ format_f 0 (series_min (col_N df)) ++ " - " ++
      format_f 0 (series_max (col_N df)) ++ nl;
    "  Robots mínimos:      " ++ format_f 0 (series_min (col_R_min df)) ++ nl;
    "  Robots máximos:      " ++ format_f 0 (series_max (col_R_min df)) ++ nl ]
  ++
  let df_valid := df_filter within_cap df in
  if df_empty df_valid then []
  else
    let avg_efficiency := series_mean (efficiency_of df_valid) in
    let avg_success :=
      fmul (series_mean (col_success_rate df_valid)) (of_Z 100) in
    [ "  Eficiencia promedio: " ++ format_f 2 avg_efficiency ++
        " mangos/robot" ++ nl;
      "  Tasa éxito promedio: " ++ format_f 1 avg_success ++ "%" ++ nl ].

Definition recommendations_header : list string :=
  [ nl ++ rule70 ++ nl;
    " RECOMENDACIONES" ++ nl;
    rule70 ++ nl ].

Definition heading_1 : string :=
  nl ++ "1. PUNTO ÓPTIMO DE OPERACIÓN (sin fallas):" ++ nl.
Definition heading_2 : string := nl ++ "2. IMPACTO DE REDUNDANCIA:" ++ nl.
Definition heading_3 : string := nl ++ "3. ESCALABILIDAD:" ++ nl.

(** Section 1: written only when the baseline has a row within the cap. *)
Definition optimal_section (data : ResultSet) : M unit :=
  match dict_get baseline_key data with
  | Some df_base =>
      let df_valid := df_filter within_cap df_base in
      if df_empty df_valid then ret tt
      else
        let df_valid := set_efficiency (efficiency_of df_valid) df_valid in
        match loc_idxmax df_valid with
        | None => raise ValueError
        | Some (best, optimal_eff) =>
            write heading_1 ;;
            write ("   - Configuración: N=" ++ format_f 0 (of_Z (N best)) ++
                   " mangos, R=" ++ format_f 0 (of_Z (R_min best)) ++
                   " robots" ++ nl) ;;
            write ("   - Eficiencia: " ++ format_f 2 optimal_eff ++
                   " mangos/robot" ++ nl) ;;
            write ("   - Esta configuración maximiza la utilización de recursos"
                   ++ nl)
        end
  | None => ret tt
  end.

Definition n_compare : Z := 30.

(** Section 2: the heading, then the figures when both tables have a row
    at [n_compare]. *)
Definition redundancy_section (data : ResultSet) : M unit :=
  write heading_2 ;;
  match dict_get baseline_key data, dict_get (Fin (1 # 20)) data with
  | Some df_0, Some df_005 =>
      match r_min_at n_compare df_0, r_min_at n_compare df_005 with
      | r_0 :: _, r_005 :: _ =>
          let overhead := overhead_pct r_005 r_0 in
          write ("   - Con B=0.05, se requiere " ++ format_f 1 overhead ++
                 "% más robots" ++ nl) ;;
          write ("   - Ejemplo: N=30 mangos requiere " ++ format_f 0 (of_Z r_0)
                 ++ " robots (B=0) " ++ "vs " ++ format_f 0 (of_Z r_005) ++
                 " robots (B=0.05)" ++ nl)
      | _, _ => ret tt
      end
  | _, _ => ret tt
  end.

Definition scalability_section : list string :=
  [ heading_3;
    "   - El sistema escala aproximadamente linealmente con N" ++ nl;
    "   - Para cargas de 1.2×N, planificar incremento proporcional de robots"
      ++ nl;
    nl ++ rule70 ++ nl ].

(** The body of [with open(report_file, 'w') as f]. *)
Definition write_report (data : ResultSet) (report_file : string) : M unit :=
  emit (OpenW report_file) ;;
  for_each report_header write ;;
  for_each (sorted_items data) (fun '(b_value, df) =>
    for_each (table_section b_value df) write) ;;
  for_each recommendations_header write ;;
  optimal_section data ;;
  redundancy_section data ;;
  for_each scalability_section write.

Definition generate_summary_report (output_dir : string) : M unit :=
  data <- get_data ;;
  let report_file := path_join output_dir "analysis_report.txt" in
  write_report data report_file ;;
  print ("✓ Guardado: " ++ report_file).

(* ================================================================== *)
(** ** Orchestrator *)

Definition FileSystem := string -> option Directory.

Definition render_all (results_dir : string) : M unit :=
  print "Generando gráficos..." ;;
  plot_r_vs_n_comparison results_dir ;;
  plot_cost_effectiveness results_dir ;;
  plot_redundancy_analysis results_dir ;;
  print (nl ++ "Generando reporte...") ;;
  generate_summary_report results_dir ;;
  print (nl ++ str_repeat "=" 60) ;;
  print " ✓ Análisis completado exitosamente" ;;
  print (str_repeat "=" 60) ;;
  print (nl ++ "Resultados guardados en: " ++ results_dir ++ "/") ;;
  print "Archivos generados:" ;;
  print "  - r_vs_n_comparison.png" ;;
  print "  - cost_effectiveness.png" ;;
  print "  - redundancy_analysis.png" ;;
  print "  - analysis_report.txt" ;;
  print "".

Definition usage : M unit :=
  print "Uso: python3 plot_results.py <results_dir>" ;;
  print "Ejemplo: python3 plot_results.py results/" ;;
  raise (SystemExit 1).

Definition main (argv : list string) (fs : FileSystem) : M unit :=
  match argv with
  | _ :: results_dir :: _ =>
      match fs results_dir with
      | None =>
          print ("Error: Directorio " ++ results_dir ++ " no existe") ;;
          raise (SystemExit 1)
      | Some dir =>
          print (nl ++ str_repeat "=" 60) ;;
          print " MangoNeado - Análisis de Resultados" ;;
          print (str_repeat "=" 60 ++ nl) ;;
          print "Cargando datos de calibración..." ;;
          loaded <- load_calibration_data results_dir dir ;;
          match loaded with
          | None | Some [] =>
              print "Error: No se pudieron cargar datos" ;;
              raise (SystemExit 1)
          | Some data =>
              set_data data ;;
              print (nl ++ "✓ Cargados " ++
                     str_of_N (N.of_nat (List.length data)) ++
                     " conjuntos de datos" ++ nl) ;;
              render_all results_dir
          end
      end
  | _ => usage
  end.

Definition run {A} (c : M A) (data : ResultSet) : Outcome A * World :=
  c (mkWorld data []).

(* ================================================================== *)
(** * Vocabulary of the properties

    Predicates on computations and traces, the sample inputs, and the
    readings of the derivations that the statements below compare the
    code with. *)

Local Open Scope list_scope.






(** Sample tables used for the concrete checks below. *)
Definition sample_base : DataFrame :=
  read_table [mkRow 10 2 1; mkRow 30 5 1; mkRow 50 8 (9 # 10)].
Definition sample_b005 : DataFrame :=
  read_table [mkRow 10 3 1; mkRow 30 6 1; mkRow 40 8 (4 # 5)].
Definition data_without_baseline : ResultSet := [(Fin (1 # 20), sample_b005)].
Definition data_both : ResultSet :=
  [(Fin 0, sample_base); (Fin (1 # 20), sample_b005)].

(** A comparison row has a baseline row with the same [N]. *)
Definition has_baseline_match (baseline : DataFrame) (row : Row) : bool :=
  existsb (fun r => N r =? N row) (rows baseline).

(** The baseline row the overhead of [row] is taken against: the first one
    with the same [N]. *)
Definition baseline_row (baseline : DataFrame) (row : Row) : option Row :=
  find (fun r => N r =? N row) (rows baseline).





Definition baseline_above_cap : DataFrame :=
  read_table [mkRow 10 5 1; mkRow 100 25 (1 # 2)].

(** [c] ends with outcome [o] after appending exactly [t], whatever the
    world it starts from, and leaves the store as it is. *)
Definition writer {A} (c : M A) (o : Outcome A) (t : list Event) : Prop :=
  forall w, c w = (o, mkWorld (store w) (trace w ++ t)).

Definition has_writer {A} (c : M A) : Prop := exists o t, writer c o t.

Definition section_of (item : PyFloat * DataFrame) : list string :=
  table_section (fst item) (snd item).


(** A ResultSet as the loader can hand it over, within the model: keys
    pairwise different and none of them NaN. *)
Definition valid_keys (d : ResultSet) : Prop :=
  no_nan_key d /\ distinct_keys d.


(** Section 1 has nothing to show: no baseline, or no baseline row
    within the cap. *)
Definition no_optimum_data (data : ResultSet) : Prop :=
  match dict_get baseline_key data with
  | None => True
  | Some df_base => df_empty (df_filter within_cap df_base) = true
  end.

(** Section 2 has nothing to show: one of the two tables is absent or
    has no row at [N = 30]. *)
Definition no_redundancy_data (data : ResultSet) : Prop :=
  match dict_get baseline_key data, dict_get (Fin (1 # 20)) data with
  | Some df_0, Some df_005 =>
      r_min_at n_compare df_0 = [] \/ r_min_at n_compare df_005 = []
  | _, _ => True
  end.

(** What one pass of the loop over the tables draws: the curve of the rows
    within the cap, and a cross at height 20 for every row above it. *)
Definition comparison_events (item : PyFloat * DataFrame) : list Event :=
  Plot Plt (col_N (df_filter within_cap (snd item)))
           (col_R_min (df_filter within_cap (snd item)))
           (Some ("B = " ++ format_f 3 (fst item))%string)
  :: (if df_empty (df_filter above_cap (snd item)) then []
      else [Scatter (col_N (df_filter above_cap (snd item)))
                    (repeat (of_Z 20)
                            (List.length
                               (rows (df_filter above_cap (snd item)))))]).

(** The shaded region computed from a table: from the smallest [N] to
    the smallest [N] plus 0.3 times the range of [N]. *)
Definition low_load_region (df : DataFrame) : Event :=
  AxVSpan (series_min (col_N df))
          (fadd (series_min (col_N df))
                (fmul (fsub (series_max (col_N df)) (series_min (col_N df)))
                      (Fin (3 # 10)))).



(** The key a file name decodes to, if any. *)
Definition decoded_key (name : string) : option PyFloat :=
  py_float (b_str_of name).

(** The table [read_csv] returns for a file, if it returns one. *)
Definition table_of (dir : Directory) (name : string) : option DataFrame :=
  match find (fun f => String.eqb (fst f) name) dir with
  | Some (_, Returned df) => Some df
  | _ => None
  end.

(** The line printed for one file. *)
Definition load_message (dir : Directory) (name : string) : string :=
  match decoded_key name, table_of dir name with
  | Some _, Some df =>
      "✓ Cargado: " ++ name ++ " (" ++
      str_of_N (N.of_nat (List.length (rows df))) ++ " puntos)"
  | _, _ => "Advertencia: No se pudo extraer B de " ++ name
  end.

(** The (key, table) pair a file contributes; nothing when its name does
    not decode. *)
Definition entry_of (dir : Directory) (name : string)
  : list (PyFloat * DataFrame) :=
  match decoded_key name, table_of dir name with
  | Some k, Some df => [(k, df)]
  | _, _ => []
  end.

Definition store_entries (entries : list (PyFloat * DataFrame))
           (data : ResultSet) : ResultSet :=
  fold_left (fun d kv => dict_set (fst kv) (snd kv) d) entries data.

(** Every file whose name decodes can be read. *)
Definition readable (dir : Directory) (files : list string) : Prop :=
  forall name, In name files -> decoded_key name <> None ->
               table_of dir name <> None.





(* ------------------------------------------------------------------ *)
(** ** Vocabulary of the further properties *)

(** From any world whose store is [d], [c] ends with outcome [o], leaves
    the store [d'] and has appended exactly [t]. *)
Definition runs_to {A} (d : ResultSet) (c : M A) (o : Outcome A)
           (d' : ResultSet) (t : list Event) : Prop :=
  forall w, store w = d -> c w = (o, mkWorld d' (trace w ++ t)).

Definition is_print (ev : Event) : bool :=
  match ev with Print _ => true | _ => false end.

Definition is_savefig (ev : Event) : bool :=
  match ev with SaveFig _ => true | _ => false end.

Definition is_open (ev : Event) : bool :=
  match ev with OpenW _ => true | _ => false end.


(** What the comparison chart appends for a ResultSet. *)
Definition comparison_trace (data : ResultSet) (out : string) : list Event :=
  flat_map comparison_events (sorted_items data)
  ++ match data with
     | (_, first_df) :: _ => [low_load_region first_df]
     | [] => []
     end
  ++ [SaveFig (path_join out "r_vs_n_comparison.png");
      Print ("✓ Guardado: " ++ path_join out "r_vs_n_comparison.png")%string].

(** The curve of one sample [N] in the first panel of the redundancy
    chart: none when no table has a row with that [N]. *)
Definition sample_curve (data : ResultSet) (n_target : Z) : list Event :=
  if forallb is_nan (r_values_at n_target (sorted_items data)) then []
  else [Plot Ax1 (keys (sorted_items data))
             (r_values_at n_target (sorted_items data))
             (Some ("N=" ++ str_of_Z n_target)%string)].

Definition sample_events (data : ResultSet) : list Event :=
  match data with
  | [] => []
  | _ => flat_map (sample_curve data) sample_n_values
  end.

(** The curve of one table in the overhead panel. *)
Definition overhead_curve (baseline_data : DataFrame)
           (item : PyFloat * DataFrame) : list Event :=
  if feqb (fst item) baseline_key then []
  else
    match overhead_series baseline_data (snd item) with
    | [] => []
    | _ => [Plot Ax2 (n_common baseline_data (snd item))
                 (overhead_series baseline_data (snd item))
                 (Some ("B=" ++ format_f 3 (fst item))%string)]
    end.

Definition overhead_events (data : ResultSet) : list Event :=
  match dict_get baseline_key data with
  | Some baseline_data =>
      flat_map (overhead_curve baseline_data) (sorted_items data)
      ++ [AxHLine (Fin 0)]
  | None => []
  end.

Definition redundancy_trace (data : ResultSet) (out : string) : list Event :=
  sample_events data ++ overhead_events data
  ++ [SaveFig (path_join out "redundancy_analysis.png");
      Print ("✓ Guardado: " ++ path_join out "redundancy_analysis.png")%string].

(** A row whose efficiency [N / R_min] is a number (not 0 / 0). *)
Definition has_efficiency (r : Row) : bool :=
  negb (is_nan (fdiv (of_Z (N r)) (of_Z (R_min r)))).

(** The efficiency of one row. *)
Definition row_efficiency (r : Row) : PyFloat :=
  fdiv (of_Z (N r)) (of_Z (R_min r)).

(** The ResultSet once the chart has assigned the efficiency column. *)
Definition with_efficiency (data : ResultSet) (df0 : DataFrame) : ResultSet :=
  dict_set baseline_key (set_efficiency (efficiency_of df0) df0) data.

(** What the cost-effectiveness chart draws before it looks for the
    optimum. *)
Definition cost_curves (df0 : DataFrame) (first : Row) : list Event :=
  [Plot Ax1 (col_N df0) (col_R_min df0) (Some "R mínimo");
   Plot Ax1 (col_N df0)
        (series_scale (col_N df0) (fdiv (of_Z (R_min first)) (of_Z (N first))))
        (Some "Escalado lineal ideal");
   FillBetween (col_N df0) (col_R_min df0)
               (series_scale (col_R_min df0) (Fin (6 # 5)));
   Plot Ax2 (col_N df0) (efficiency_of df0) None].


(** A ResultSet whose baseline file held only the header line. *)
Definition data_empty_baseline : ResultSet :=
  [(Fin 0, read_table []); (Fin (1 # 20), sample_b005)].



(** The report up to and including the recommendations banner. *)
Definition report_front (data : ResultSet) : list string :=
  report_header ++ flat_map section_of (sorted_items data)
  ++ recommendations_header.


(** A baseline table whose only row within the cap has no efficiency. *)
Definition data_zero_row : ResultSet := [(Fin 0, read_table [mkRow 0 0 1])].

(** The (key, table) pairs of the matching files of a directory, in
    file-name order. *)
Definition loaded_entries (dir : Directory) : list (PyFloat * DataFrame) :=
  flat_map (entry_of dir) (sorted_names (glob_csv dir)).

(** A directory whose second file, in name order, cannot be parsed. *)
Definition dir_unreadable : Directory :=
  [("r_vs_n_B0.000.csv", Returned sample_base);
   ("r_vs_n_B0.050.csv", Raised ReadError);
   ("r_vs_n_B0.100.csv", Returned sample_b005)].

(** A directory with two files for the same failure probability. *)
Definition dir_same_key : Directory :=
  [("r_vs_n_B0.0.csv", Returned sample_base);
   ("r_vs_n_B0.00.csv", Returned sample_b005)].

(** What [main] prints before it loads the data. *)
Definition main_banner : list Event :=
  [Print (nl ++ str_repeat "=" 60)%string;
   Print " MangoNeado - Análisis de Resultados";
   Print (str_repeat "=" 60 ++ nl)%string;
   Print "Cargando datos de calibración..."].

Definition no_data_error : Event := Print "Error: No se pudieron cargar datos".

(** A directory in which no matching file has a name that decodes. *)
Definition dir_undecodable : Directory :=
  [("r_vs_n_Bxx.csv", Returned sample_base);
   ("r_vs_n_B.csv", Returned sample_b005);
   ("notes.txt", Returned sample_base)].

(** Two ResultSets with the same keys in the same order whose tables have
    the same rows (they may differ in the derived column). *)
Definition same_rows (d d' : ResultSet) : Prop :=
  Forall2 (fun a b => fst a = fst b /\ rows (snd a) = rows (snd b)) d d'.






(* ================================================================== *)
(** * Properties *)

(** ** Checks of the text primitives *)

Example format_f_examples :
  format_f 3 (Fin (5 # 100)) = "0.050" /\
  format_f 2 (Fin (1 # 8)) = "0.12" /\
  format_f 0 (Fin (5 # 2)) = "2" /\
  format_f 0 (Fin (3 # 2)) = "2" /\
  format_f 2 (Fin (- 1 # 1000)) = "-0.00" /\
  format_f 1 (of_Z 20) = "20.0" /\
  remove_all ".csv" (remove_all "r_vs_n_B" "r_vs_n_B1.csv.csv") = "1" /\
  path_join "res" "a.png" = "res/a.png" /\
  path_join "res/" "a.png" = "res/a.png".
Proof. repeat split; reflexivity. Qed.

Example py_float_examples :
  py_float "0.000" = Some (Fin 0) /\
  py_float "0.050" = Some (Fin (1 # 20)) /\
  py_float " 1_0.5e1 " = Some (Fin 105) /\
  py_float "+.5" = Some (Fin (1 # 2)) /\
  py_float "5." = Some (Fin 5) /\
  py_float "-Infinity" = Some NInf /\
  py_float "NAN" = Some NaN /\
  py_float "1.e5" = Some (Fin 100000) /\
  py_float "1e-2" = Some (Fin (1 # 100)) /\
  map py_float ["1__0"; "_1"; "1_"; "."; "e5"; "1e"; "0x10"; "1 0"; "+ 1";
                "infinit"; "1._5"; "1_.5"; "1e_5"; ""; "--1"; "1.csv"]
  = repeat None 16.
Proof. repeat split; reflexivity. Qed.

(** ** Computations that return and leave the ResultSet alone *)

Section Quiet.

Variable d : ResultSet.
Variable P : Event -> Prop.







End Quiet.




(* ------------------------------------------------------------------ *)
(** ** Missing baseline: what the charts do *)













(* ------------------------------------------------------------------ *)
(** ** The dictionary *)

Lemma dict_set_keys k v d v0 :
  dict_get k d = Some v0 -> keys (dict_set k v d) = keys d.
Proof.
  unfold keys. induction d as [|[k' v'] d IH]; cbn; [discriminate|].
  destruct (feqb k' k); cbn; [reflexivity|].
  intros H. now rewrite IH.
Qed.

Lemma dict_get_set_same k v d v0 :
  dict_get k d = Some v0 -> dict_get k (dict_set k v d) = Some v.
Proof.
  induction d as [|[k' v'] d IH]; cbn; [discriminate|].
  destruct (feqb k' k) eqn:E; cbn; rewrite E; [reflexivity | exact IH].
Qed.

Lemma dict_set_other_entries k v d i k' v' :
  nth_error d i = Some (k', v') -> feqb k' k = false ->
  nth_error (dict_set k v d) i = Some (k', v').
Proof.
  revert i. induction d as [|[k1 v1] d IH]; intros [|i]; cbn; try discriminate.
  - intros [= -> ->] E. now rewrite E.
  - intros H E. destruct (feqb k1 k); cbn; [exact H | now apply IH].
Qed.

(* ------------------------------------------------------------------ *)
(** ** The cost-effectiveness chart writes into the shared table *)

Lemma cost_chart_store (data : ResultSet) (out : string) (df0 : DataFrame) :
  dict_get baseline_key data = Some df0 ->
  store (final (run (plot_cost_effectiveness out) data)) =
    dict_set baseline_key (set_efficiency (efficiency_of df0) df0) data.
Proof.
  intros H. unfold run, final, plot_cost_effectiveness.
  unfold bind at 1. unfold get_data at 1. cbn [store]. rewrite H.
  unfold bind, set_data, emit, print, raise. cbn [store trace fst snd].
  cbn [set_efficiency rows].
  destruct (rows df0) as [|first rest]; [reflexivity|].
  cbn [store trace fst snd].
  destruct (loc_idxmax _) as [[best eff]|]; reflexivity.
Qed.

(** C10.  With a baseline table [df0] under key 0.0, rendering the
    cost-effectiveness chart (whether it then completes or raises) leaves
    the shared ResultSet equal to the old one with the baseline entry
    replaced in place by the same rows plus the column
    [efficiency = N / R_min]: the keys and their order are the same, every
    entry under another key is the same table at the same place, and the
    rows of the baseline table are the same. *)
Theorem C10_cost_chart_adds_efficiency_in_place
  (data : ResultSet) (out : string) (df0 : DataFrame)
  (Hbase : dict_get baseline_key data = Some df0) :
  store (final (run (plot_cost_effectiveness out) data)) =
    dict_set baseline_key (mkDF (rows df0) (Some (efficiency_of df0))) data
  /\ keys (store (final (run (plot_cost_effectiveness out) data))) = keys data
  /\ (forall i k df,
        nth_error data i = Some (k, df) -> feqb k baseline_key = false ->
        nth_error (store (final (run (plot_cost_effectiveness out) data))) i
          = Some (k, df))
  /\ (exists df',
        dict_get baseline_key
                 (store (final (run (plot_cost_effectiveness out) data)))
          = Some df'
        /\ rows df' = rows df0
        /\ col_N df' = col_N df0
        /\ col_R_min df' = col_R_min df0
        /\ col_success_rate df' = col_success_rate df0
        /\ efficiency df' = Some (efficiency_of df0)).
Proof.
  rewrite (cost_chart_store data out df0 Hbase).
  split; [reflexivity|]. split; [now apply dict_set_keys with (v0 := df0)|].
  split; [intros i k df Hi Hk; now apply dict_set_other_entries|].
  exists (mkDF (rows df0) (Some (efficiency_of df0))).
  split; [now apply dict_get_set_same with (v0 := df0)|].
  repeat split.
Qed.

Lemma C10_cost_chart_adds_efficiency_in_place_witness :
  dict_get baseline_key data_both = Some sample_base /\
  store (final (run (plot_cost_effectiveness "results") data_both)) =
    [(Fin 0, mkDF (rows sample_base) (Some [Fin 5; Fin 6; Fin (25 # 4)]));
     (Fin (1 # 20), sample_b005)].
Proof.
  split; [reflexivity|].
  exact (proj1 (C10_cost_chart_adds_efficiency_in_place
                  data_both "results" sample_base eq_refl)).
Defined.

(* ------------------------------------------------------------------ *)
(** ** Overhead relative to the baseline *)

Lemma r_min_at_head (n : Z) (df : DataFrame) :
  match r_min_at n df with
  | r :: _ => Some r
  | [] => None
  end = option_map R_min (find (fun r => N r =? n) (rows df)).
Proof.
  unfold r_min_at. induction (rows df) as [|r l IH]; cbn; [reflexivity|].
  destruct (N r =? n); cbn; [reflexivity | exact IH].
Qed.

Lemma find_existsb {A} (p : A -> bool) (l : list A) :
  existsb p l = match find p l with Some _ => true | None => false end.
Proof.
  induction l as [|x l IH]; cbn; [reflexivity|].
  destruct (p x); cbn; [reflexivity | exact IH].
Qed.

Lemma overhead_rows_spec (baseline : DataFrame) (rs : list Row) :
  overhead_rows baseline rs =
    map (fun row =>
           (N row,
            match baseline_row baseline row with
            | Some r0 => overhead_pct (R_min row) (R_min r0)
            | None => NaN
            end))
        (filter (has_baseline_match baseline) rs).
Proof.
  induction rs as [|row rs IH]; [reflexivity|].
  cbn [overhead_rows filter].
  unfold has_baseline_match at 1. rewrite find_existsb.
  pose proof (r_min_at_head (N row) baseline) as Hh.
  fold (baseline_row baseline row) in Hh |- *.
  destruct (baseline_row baseline row) as [r0|] eqn:Eb; cbn in Hh;
    destruct (r_min_at (N row) baseline) as [|r t]; try discriminate.
  - injection Hh as ->. cbn [map]. now rewrite Eb, IH.
  - exact IH.
Qed.





Lemma qsign_Qred (q : Q) : qsign (Qred q) = qsign q.
Proof.
  pose proof (Qred_correct q) as H. unfold Qeq in H. unfold qsign.
  destruct (Qred q) as [n d], q as [n' d'].
  destruct n, n'; cbn in *; try reflexivity; discriminate.
Qed.

(** A zero baseline value raises nothing: the entry is an infinity of the
    sign of [r_with_b], or NaN when that is zero too. *)
Lemma overhead_pct_by_zero (r : Z) :
  overhead_pct r 0 = inf_of_sign (Z.sgn r).
Proof.
  unfold overhead_pct, of_Z, fsub, fdiv. cbn [Qeq_bool Qnum inject_Z Z.eqb Z.mul].
  rewrite qsign_Qred. unfold qsign. cbn [Qnum Qminus Qplus Qopp inject_Z Qden].
  replace (r * 1 + - 0 * 1) with r by lia.
  destruct r; reflexivity.
Qed.







(** Both conditions are needed: a repeated [N] with another [R_min], or a
    zero [R_min], gives an entry that is not 0. *)
Lemma overhead_against_itself_needs_invariant :
  overhead_series (read_table [mkRow 10 5 1; mkRow 10 6 1])
                  (read_table [mkRow 10 5 1; mkRow 10 6 1])
    = [Fin 0; Fin 20]
  /\ overhead_series (read_table [mkRow 10 0 1]) (read_table [mkRow 10 0 1])
    = [NaN].
Proof. split; reflexivity. Qed.

(* ------------------------------------------------------------------ *)
(** ** Efficiency *)





Lemma fdiv_Z_zero (n : Z) : fdiv (of_Z n) (of_Z 0) = inf_of_sign (Z.sgn n).
Proof. reflexivity. Qed.




(* ------------------------------------------------------------------ *)
(** ** The optimal operating point *)






Lemma series_div_map {A} (f g : A -> PyFloat) (l : list A) :
  series_div (map f l) (map g l) = map (fun r => fdiv (f r) (g r)) l.
Proof. induction l as [|x l IH]; cbn; [reflexivity | now rewrite IH]. Qed.




(** C3 at a failing input.  The baseline has one row within the cap
    (efficiency 2) and one above it (R_min = 25, efficiency 4).  The chart
    annotates the row above the cap as the optimum, while the report, on
    the same data, names the row within the cap; and where the baseline
    has no row at all the chart raises instead of giving no result. *)
Theorem C3_chart_optimum_ignores_cap :
  In (Annotate (Fin 100) (Fin (21 # 5)) "Óptimo: N=100, R=25")
     (trace (final (run (plot_cost_effectiveness "results")
                        [(Fin 0, baseline_above_cap)])))
  /\ In ("   - Configuración: N=10 mangos, R=5 robots" ++ nl)%string
        (written (trace (final (run (generate_summary_report "results")
                                    [(Fin 0, baseline_above_cap)]))))
  /\ outcome (run (plot_cost_effectiveness "results") [(Fin 0, read_table [])])
     = Raised IndexError
  /\ outcome (run (generate_summary_report "results") [(Fin 0, read_table [])])
     = Returned tt.
Proof.
  repeat split; try reflexivity; vm_compute; tauto.
Qed.

(* ------------------------------------------------------------------ *)
(** ** Computations that only append to the trace *)

Lemma writer_ret {A} (a : A) : writer (ret a) (Returned a) [].
Proof. intros [s t]. unfold ret. cbn. now rewrite app_nil_r. Qed.

Lemma writer_emit (ev : Event) : writer (emit ev) (Returned tt) [ev].
Proof. intros w. reflexivity. Qed.

Lemma writer_raise {A} (e : Exn) : writer (@raise A e) (Raised e) [].
Proof. intros [s t]. unfold raise. cbn. now rewrite app_nil_r. Qed.

Lemma writer_bind {A B} (c : M A) (k : A -> M B) a t o t' :
  writer c (Returned a) t -> writer (k a) o t' ->
  writer (bind c k) o (t ++ t').
Proof.
  intros Hc Hk w. unfold bind. rewrite Hc, Hk. cbn. now rewrite app_assoc.
Qed.

Lemma writer_bind_raised {A B} (c : M A) (k : A -> M B) e t :
  writer c (Raised e) t -> writer (bind c k) (Raised e) t.
Proof. intros Hc w. unfold bind. now rewrite Hc. Qed.

Lemma writer_write_all (l : list string) :
  writer (for_each l write) (Returned tt) (map FWrite l).
Proof.
  induction l as [|s l IH]; cbn [for_each map].
  - apply writer_ret.
  - apply (writer_bind _ _ tt [FWrite s]); [apply writer_emit | exact IH].
Qed.

Lemma writer_for_each {A} (l : list A) (body : A -> M unit)
      (tr : A -> list Event) :
  (forall x, writer (body x) (Returned tt) (tr x)) ->
  writer (for_each l body) (Returned tt) (flat_map tr l).
Proof.
  intros Hb. induction l as [|x l IH]; cbn [for_each flat_map].
  - apply writer_ret.
  - apply (writer_bind _ _ tt); [apply Hb | exact IH].
Qed.

Lemma has_writer_bind {A B} (c : M A) (k : A -> M B) :
  has_writer c -> (forall a, has_writer (k a)) -> has_writer (bind c k).
Proof.
  intros ([a|e] & t & Hc) Hk.
  - destruct (Hk a) as (o & t' & Hka). exists o, (t ++ t').
    now apply writer_bind with a.
  - exists (Raised e), t. now apply writer_bind_raised.
Qed.

Lemma has_writer_emit ev : has_writer (emit ev).
Proof. eexists _, _. apply writer_emit. Qed.

Lemma has_writer_ret {A} (a : A) : has_writer (ret a).
Proof. eexists _, _. apply writer_ret. Qed.

Lemma has_writer_raise {A} e : has_writer (@raise A e).
Proof. eexists _, _. apply writer_raise. Qed.

Lemma has_writer_write_all l : has_writer (for_each l write).
Proof. eexists _, _. apply writer_write_all. Qed.




Lemma flat_map_writes {A} (f : A -> list string) (l : list A) :
  flat_map (fun x => map FWrite (f x)) l = map FWrite (flat_map f l).
Proof.
  induction l as [|x l IH]; cbn; [reflexivity|].
  now rewrite IH, map_app.
Qed.

(* ------------------------------------------------------------------ *)
(** ** The report *)

Lemma optimal_section_has_writer data : has_writer (optimal_section data).
Proof.
  unfold optimal_section.
  destruct (dict_get baseline_key data) as [df|]; [|apply has_writer_ret].
  destruct (df_empty _); [apply has_writer_ret|].
  destruct (loc_idxmax _) as [[best eff]|]; [|apply has_writer_raise].
  repeat (apply has_writer_bind; [apply has_writer_emit | intros _]).
  apply has_writer_emit.
Qed.

Lemma redundancy_section_has_writer data : has_writer (redundancy_section data).
Proof.
  unfold redundancy_section.
  apply has_writer_bind; [apply has_writer_emit | intros _].
  destruct (dict_get baseline_key data) as [df0|]; [|apply has_writer_ret].
  destruct (dict_get (Fin (1 # 20)) data) as [df5|]; [|apply has_writer_ret].
  destruct (r_min_at n_compare df0) as [|r0 ?]; [apply has_writer_ret|].
  destruct (r_min_at n_compare df5) as [|r5 ?]; [apply has_writer_ret|].
  apply has_writer_bind; [apply has_writer_emit | intros _].
  apply has_writer_emit.
Qed.

(** The report starts with the title, then one block per table in the
    order of [sorted_items], then the recommendations banner. *)
Lemma write_report_writer (data : ResultSet) (file : string) :
  exists o rest,
    writer (write_report data file) o
      (OpenW file ::
       map FWrite (report_header ++ flat_map section_of (sorted_items data)
                   ++ recommendations_header) ++ rest).
Proof.
  assert (Htail : has_writer (optimal_section data ;;
                              redundancy_section data ;;
                              for_each scalability_section write)).
  { apply has_writer_bind; [apply optimal_section_has_writer | intros _].
    apply has_writer_bind; [apply redundancy_section_has_writer | intros _].
    apply has_writer_write_all. }
  destruct Htail as (o & rest & Htail). exists o, rest.
  unfold write_report.
  apply (writer_bind _ _ tt [OpenW file]); [apply writer_emit|].
  rewrite !map_app, <- !app_assoc.
  apply (writer_bind _ _ tt); [apply writer_write_all|].
  apply (writer_bind _ _ tt).
  { rewrite <- flat_map_writes. apply writer_for_each.
    intros [b df]. apply writer_write_all. }
  apply (writer_bind _ _ tt); [apply writer_write_all | exact Htail].
Qed.

(* ------------------------------------------------------------------ *)
(** ** Order of the keys *)


















Lemma report_run (data : ResultSet) (out : string) :
  run (generate_summary_report out) data =
    (write_report data (path_join out "analysis_report.txt") ;;
     print ("✓ Guardado: " ++ path_join out "analysis_report.txt")%string)
      (mkWorld data []).
Proof. reflexivity. Qed.

Lemma report_run_writer (data : ResultSet) (out : string) o t :
  writer (write_report data (path_join out "analysis_report.txt") ;;
          print ("✓ Guardado: " ++ path_join out "analysis_report.txt")%string)
         o t ->
  outcome (run (generate_summary_report out) data) = o /\
  final (run (generate_summary_report out) data) = mkWorld data t.
Proof. intros H. rewrite report_run, H. now split. Qed.



(* ------------------------------------------------------------------ *)
(** ** The report when data is missing *)

(** C6, as amended.  On the empty ResultSet the report is written without
    raising and holds exactly: the title, the recommendations banner, the
    heading of section 2, and section 3 (heading, its two fixed notes and
    the closing rule); there is no per-table block and no figure.  In
    general section 2 keeps its heading and omits only its figures when its
    data is missing, and section 3 needs no data; section 1 writes nothing
    at all, heading included, when the baseline is absent or has no row
    within the cap. *)
Theorem C6_report_with_missing_data :
  (forall out : string,
      run (generate_summary_report out) [] =
        (Returned tt,
         mkWorld []
           (OpenW (path_join out "analysis_report.txt")
            :: map FWrite (report_header ++ recommendations_header
                           ++ [heading_2] ++ scalability_section)
            ++ [Print ("✓ Guardado: " ++
                       path_join out "analysis_report.txt")%string])))
  /\ (forall data, no_optimum_data data ->
        writer (optimal_section data) (Returned tt) [])
  /\ (forall data, no_redundancy_data data ->
        writer (redundancy_section data) (Returned tt) [FWrite heading_2])
  /\ writer (for_each scalability_section write) (Returned tt)
            (map FWrite scalability_section).
Proof.
  split; [reflexivity|]. split; [|split].
  - intros data H. unfold no_optimum_data, optimal_section in *.
    destruct (dict_get baseline_key data) as [df|]; [|apply writer_ret].
    rewrite H. apply writer_ret.
  - intros data H. unfold no_redundancy_data, redundancy_section in *.
    apply (writer_bind _ _ tt [FWrite heading_2] _ []); [apply writer_emit|].
    destruct (dict_get baseline_key data) as [df0|]; [|apply writer_ret].
    destruct (dict_get (Fin (1 # 20)) data) as [df5|]; [|apply writer_ret].
    destruct H as [-> | H]; [apply writer_ret|].
    rewrite H. destruct (r_min_at n_compare df0); apply writer_ret.
  - apply writer_write_all.
Qed.

(** C6 as stated fails for section 1: with no baseline (the empty
    ResultSet included) its heading is not kept, while the headings of
    sections 2 and 3 are. *)
Lemma C6_optimum_heading_not_kept :
  existsb (String.eqb heading_1)
    (written (trace (final (run (generate_summary_report "results") []))))
  = false
  /\ existsb (String.eqb heading_2)
       (written (trace (final (run (generate_summary_report "results") []))))
     = true
  /\ existsb (String.eqb heading_3)
       (written (trace (final (run (generate_summary_report "results") []))))
     = true
  /\ existsb (String.eqb heading_1)
       (written (trace (final (run (generate_summary_report "results")
                                   data_without_baseline))))
     = false
  /\ existsb (String.eqb heading_1)
       (written (trace (final (run (generate_summary_report "results")
                                   data_both))))
     = true.
Proof. repeat split; vm_compute; reflexivity. Qed.

(* ------------------------------------------------------------------ *)
(** ** The comparison chart *)








Lemma filter_none {A} (p : A -> bool) (l : list A) :
  Forall (fun x => p x = false) l -> filter p l = [].
Proof.
  induction 1 as [|x l Hx _ IH]; cbn; [reflexivity | now rewrite Hx].
Qed.




(* ------------------------------------------------------------------ *)
(** ** The loader *)

Lemma load_loop_run (dir : Directory) (files : list string) :
  readable dir files ->
  forall data,
    writer (load_loop dir files data)
           (Returned (store_entries (flat_map (entry_of dir) files) data))
           (map Print (map (load_message dir) files)).
Proof.
  induction files as [|name files IH]; intros Hread data.
  - apply writer_ret.
  - assert (Hrest : readable dir files).
    { intros n Hn. apply Hread. now right. }
    cbn [load_loop flat_map map]. unfold store_entries.
    rewrite fold_left_app. fold (store_entries (entry_of dir name) data).
    unfold entry_of at 2, load_message at 1.
    pose proof (Hread name (or_introl eq_refl)) as Hname.
    fold (decoded_key name).
    destruct (decoded_key name) as [k|] eqn:Ek.
    + destruct (table_of dir name) as [df|] eqn:Et;
        [|exfalso; now apply Hname].
      assert (Hcsv : writer (read_csv dir name) (Returned df) []).
      { unfold read_csv. unfold table_of in Et.
        destruct (find _ dir) as [[n [df'|e]]|]; try discriminate.
        injection Et as ->. apply writer_ret. }
      apply (writer_bind _ _ df [] _ (_ :: _)); [exact Hcsv|].
      apply (writer_bind _ _ tt [_]); [apply writer_emit|].
      apply (IH Hrest).
    + apply (writer_bind _ _ tt [_]); [apply writer_emit|].
      apply (IH Hrest).
Qed.

Lemma insert_name_perm x l : Permutation (insert_name x l) (x :: l).
Proof.
  induction l as [|y l IH]; cbn; [reflexivity|].
  destruct (String.ltb y x); [|reflexivity].
  rewrite IH. apply perm_swap.
Qed.

Lemma sorted_names_perm l : Permutation (sorted_names l) l.
Proof.
  induction l as [|x l IH]; cbn; [reflexivity|].
  rewrite insert_name_perm. now constructor.
Qed.

Lemma load_run (results_dir : string) (dir : Directory) (d0 : ResultSet) :
  glob_csv dir <> [] ->
  readable dir (glob_csv dir) ->
  run (load_calibration_data results_dir dir) d0 =
    (Returned
       (Some (store_entries
                (flat_map (entry_of dir) (sorted_names (glob_csv dir))) [])),
     mkWorld d0
             (map Print
                  (map (load_message dir) (sorted_names (glob_csv dir))))).
Proof.
  intros Hne Hread. unfold run, load_calibration_data. cbv zeta.
  destruct (glob_csv dir) as [|f fs] eqn:Eg; [congruence|].
  assert (Hread' : readable dir (sorted_names (f :: fs))).
  { intros n Hn. apply Hread.
    eapply Permutation_in; [apply sorted_names_perm | exact Hn]. }
  unfold bind. rewrite (load_loop_run dir _ Hread' []). reflexivity.
Qed.








(* ================================================================== *)
(** * Further properties of the code *)

(** ** Sequencing of runs *)

Lemma runs_to_writer {A} d (c : M A) o t : writer c o t -> runs_to d c o d t.
Proof. intros H w Hw. rewrite H. now rewrite Hw. Qed.

Lemma runs_to_bind {A B} d d' d'' (c : M A) (k : A -> M B) a t o t' :
  runs_to d c (Returned a) d' t -> runs_to d' (k a) o d'' t' ->
  runs_to d (bind c k) o d'' (t ++ t').
Proof.
  intros Hc Hk w Hw. unfold bind. rewrite (Hc w Hw).
  rewrite (Hk (mkWorld d' (trace w ++ t)) eq_refl). cbn [trace].
  now rewrite app_assoc.
Qed.

Lemma runs_to_bind_raised {A B} d d' (c : M A) (k : A -> M B) e t :
  runs_to d c (Raised e) d' t -> runs_to d (bind c k) (Raised e) d' t.
Proof. intros Hc w Hw. unfold bind. now rewrite (Hc w Hw). Qed.

Lemma runs_to_get {B} d d' (k : ResultSet -> M B) o t :
  runs_to d (k d) o d' t -> runs_to d (bind get_data k) o d' t.
Proof.
  intros Hk w Hw. unfold bind, get_data. rewrite Hw. now apply Hk.
Qed.

Lemma runs_to_set d d' : runs_to d (set_data d') (Returned tt) d' [].
Proof. intros w _. unfold set_data. now rewrite app_nil_r. Qed.

Lemma runs_to_emit d ev : runs_to d (emit ev) (Returned tt) d [ev].
Proof. apply runs_to_writer, writer_emit. Qed.

Lemma runs_to_ret {A} d (a : A) : runs_to d (ret a) (Returned a) d [].
Proof. apply runs_to_writer, writer_ret. Qed.

Lemma runs_to_raise {A} d e : runs_to d (@raise A e) (Raised e) d [].
Proof. apply runs_to_writer, writer_raise. Qed.

Lemma runs_to_run {A} d (c : M A) o d' t :
  runs_to d c o d' t -> run c d = (o, mkWorld d' t).
Proof. intros H. unfold run. now rewrite (H (mkWorld d []) eq_refl). Qed.

(** ** The charts as runs *)

Lemma comparison_chart_runs (data : ResultSet) (out : string) :
  runs_to data (plot_r_vs_n_comparison out) (Returned tt) data
          (comparison_trace data out).
Proof.
  unfold plot_r_vs_n_comparison, comparison_trace. cbv zeta.
  apply runs_to_get.
  apply (runs_to_bind _ data _ _ _ tt).
  - apply runs_to_writer, writer_for_each. intros [b df].
    unfold comparison_events. cbn [fst snd].
    apply (writer_bind _ _ tt [_]); [apply writer_emit|].
    destruct (df_empty (df_filter above_cap df)); cbn [negb when];
      [apply writer_ret | apply writer_emit].
  - apply (runs_to_bind _ data _ _ _ tt).
    + destruct data as [|[k first_df] rest];
        [apply runs_to_ret | apply runs_to_emit].
    + apply (runs_to_bind _ data _ _ _ tt [_] _ [_]); apply runs_to_emit.
Qed.

Lemma sample_panel_writer (data : ResultSet) :
  writer (sample_panel data) (Returned tt) (sample_events data).
Proof.
  unfold sample_panel, sample_events. cbv zeta.
  destruct data as [|x rest]; [apply writer_ret|].
  apply writer_for_each. intros n. unfold sample_curve.
  destruct (forallb is_nan _); cbn [negb when];
    [apply writer_ret | apply writer_emit].
Qed.

Lemma overhead_panel_writer (data : ResultSet) :
  writer (overhead_panel data) (Returned tt) (overhead_events data).
Proof.
  unfold overhead_panel, overhead_events.
  destruct (dict_get baseline_key data) as [b|]; [|apply writer_ret].
  apply (writer_bind _ _ tt); [|apply writer_emit].
  apply writer_for_each. intros [k df]. unfold overhead_curve. cbn [fst snd].
  destruct (feqb k baseline_key); [apply writer_ret|]. cbv zeta.
  destruct (overhead_series b df); [apply writer_ret | apply writer_emit].
Qed.

Lemma redundancy_chart_runs (data : ResultSet) (out : string) :
  runs_to data (plot_redundancy_analysis out) (Returned tt) data
          (redundancy_trace data out).
Proof.
  unfold plot_redundancy_analysis, redundancy_trace. cbv zeta.
  apply runs_to_get.
  apply (runs_to_bind _ data _ _ _ tt);
    [apply runs_to_writer, sample_panel_writer|].
  apply (runs_to_bind _ data _ _ _ tt);
    [apply runs_to_writer, overhead_panel_writer|].
  apply (runs_to_bind _ data _ _ _ tt [_] _ [_]); apply runs_to_emit.
Qed.

(** ** The comparison chart *)





(** ** The redundancy chart *)






(** ** The cost-effectiveness chart *)



Lemma idxmax_from_all_nan (s : Series) :
  forall i best, existsb (fun x => negb (is_nan x)) s = false ->
                 idxmax_from i best s = option_map fst best.
Proof.
  induction s as [|x s IH]; intros i best; cbn; [reflexivity|].
  destruct (is_nan x); cbn; [apply IH | discriminate].
Qed.

Lemma efficiency_of_rows (df : DataFrame) :
  efficiency_of df = map row_efficiency (rows df).
Proof. unfold efficiency_of, col_N, col_R_min. apply series_div_map. Qed.

Lemma existsb_efficiency (l : list Row) :
  existsb (fun x => negb (is_nan x)) (map row_efficiency l)
  = existsb has_efficiency l.
Proof. induction l as [|r l IH]; cbn; [reflexivity | now rewrite IH]. Qed.



Lemma loc_idxmax_missing (df : DataFrame) :
  existsb has_efficiency (rows df) = false ->
  loc_idxmax (set_efficiency (efficiency_of df) df) = None.
Proof.
  intros H. unfold loc_idxmax. cbn [set_efficiency efficiency rows].
  rewrite <- existsb_efficiency, <- efficiency_of_rows in H.
  unfold idxmax. now rewrite (idxmax_from_all_nan _ O None H).
Qed.

Lemma cost_chart_runs_empty (data : ResultSet) (out : string) (df0 : DataFrame) :
  dict_get baseline_key data = Some df0 -> rows df0 = [] ->
  runs_to data (plot_cost_effectiveness out) (Raised IndexError)
          (with_efficiency data df0)
          [Plot Ax1 (col_N df0) (col_R_min df0) (Some "R mínimo")].
Proof.
  intros Hb Hr. unfold plot_cost_effectiveness. apply runs_to_get.
  rewrite Hb.
  apply (runs_to_bind _ (with_efficiency data df0) _ _ _ tt []);
    [apply runs_to_set|].
  apply (runs_to_bind _ (with_efficiency data df0) _ _ _ tt [_] _ []);
    [apply runs_to_emit|].
  cbn [set_efficiency rows]. rewrite Hr. apply runs_to_raise.
Qed.

Lemma cost_chart_runs_no_optimum (data : ResultSet) (out : string)
      (df0 : DataFrame) (first : Row) (rest : list Row) :
  dict_get baseline_key data = Some df0 -> rows df0 = first :: rest ->
  existsb has_efficiency (rows df0) = false ->
  runs_to data (plot_cost_effectiveness out) (Raised ValueError)
          (with_efficiency data df0) (cost_curves df0 first).
Proof.
  intros Hb Hr He. unfold plot_cost_effectiveness. apply runs_to_get.
  rewrite Hb.
  apply (runs_to_bind _ (with_efficiency data df0) _ _ _ tt []);
    [apply runs_to_set|].
  apply (runs_to_bind _ (with_efficiency data df0) _ _ _ tt [_]);
    [apply runs_to_emit|].
  cbn [set_efficiency rows]. rewrite Hr.
  apply (runs_to_bind _ (with_efficiency data df0) _ _ _ tt [_]);
    [apply runs_to_emit|].
  apply (runs_to_bind _ (with_efficiency data df0) _ _ _ tt [_]);
    [apply runs_to_emit|].
  apply (runs_to_bind _ (with_efficiency data df0) _ _ _ tt [_] _ []);
    [apply runs_to_emit|].
  fold (set_efficiency (efficiency_of df0) df0).
  rewrite (loc_idxmax_missing df0 He). apply runs_to_raise.
Qed.





Lemma comparison_trace_outputs (data : ResultSet) (out : string) :
  filter is_savefig (comparison_trace data out)
    = [SaveFig (path_join out "r_vs_n_comparison.png")]
  /\ filter is_open (comparison_trace data out) = [].
Proof.
  unfold comparison_trace. rewrite !filter_app.
  assert (H1 : forall p, (forall ev, p ev = true -> is_savefig ev = true
                            \/ is_open ev = true) ->
               filter p (flat_map comparison_events (sorted_items data)) = []).
  { intros p Hp. apply filter_none, Forall_flat_map, Forall_forall.
    intros item _. unfold comparison_events.
    constructor.
    - destruct (p (Plot _ _ _ _)) eqn:E; [|reflexivity].
      destruct (Hp _ E); discriminate.
    - destruct (df_empty _); repeat constructor.
      destruct (p (Scatter _ _)) eqn:E; [|reflexivity].
      destruct (Hp _ E); discriminate. }
  rewrite !H1 by auto.
  destruct data as [|[k df] rest]; split; reflexivity.
Qed.

(** When no baseline row has an efficiency (the baseline table has no
    row, or every row has [N = 0] and [R_min = 0]) the cost-effectiveness
    chart raises (at [iloc[0]], an [IndexError], when the table has no
    row; at the search for the optimum otherwise), after it has already
    stored the efficiency column, and it saves no figure.  Nothing catches
    the exception: the whole rendering sequence ends with it, having saved
    only the comparison chart and opened no report file. *)
Theorem cost_chart_failure_aborts_run
  (data : ResultSet) (out : string) (df0 : DataFrame)
  (Hbase : dict_get baseline_key data = Some df0)
  (Hnone : existsb has_efficiency (rows df0) = false) :
  exists e,
    (rows df0 = [] -> e = IndexError)
    /\ outcome (run (plot_cost_effectiveness out) data) = Raised e
    /\ store (final (run (plot_cost_effectiveness out) data))
       = with_efficiency data df0
    /\ filter is_savefig
         (trace (final (run (plot_cost_effectiveness out) data))) = []
    /\ outcome (run (render_all out) data) = Raised e
    /\ filter is_savefig (trace (final (run (render_all out) data)))
       = [SaveFig (path_join out "r_vs_n_comparison.png")]
    /\ filter is_open (trace (final (run (render_all out) data))) = [].
Proof.
  assert (Hcost : exists e t,
            (rows df0 = [] -> e = IndexError)
            /\ runs_to data (plot_cost_effectiveness out) (Raised e)
                       (with_efficiency data df0) t
            /\ filter is_savefig t = [] /\ filter is_open t = []).
  { destruct (rows df0) as [|first rest] eqn:Hr.
    - exists IndexError. eexists. split; [reflexivity|].
      split; [now apply cost_chart_runs_empty|]. now split.
    - exists ValueError. eexists. split; [discriminate|]. split.
      + eapply cost_chart_runs_no_optimum; eauto. now rewrite Hr.
      + now split. }
  destruct Hcost as (e & t & He & Hrun & Hs & Ho).
  exists e. split; [exact He|].
  rewrite (runs_to_run _ _ _ _ _ Hrun). cbn [outcome final fst snd store trace].
  split; [reflexivity|]. split; [reflexivity|]. split; [exact Hs|].
  assert (Hall : runs_to data (render_all out) (Raised e)
                   (with_efficiency data df0)
                   ([Print "Generando gráficos..."]
                    ++ comparison_trace data out ++ t)).
  { unfold render_all.
    apply (runs_to_bind _ data _ _ _ tt); [apply runs_to_emit|].
    apply (runs_to_bind _ data _ _ _ tt); [apply comparison_chart_runs|].
    apply runs_to_bind_raised; exact Hrun. }
  rewrite (runs_to_run _ _ _ _ _ Hall). cbn [outcome final fst snd store trace].
  destruct (comparison_trace_outputs data out) as [Cs Co].
  split; [reflexivity|].
  rewrite !filter_app, Cs, Co, Hs, Ho. now split.
Qed.

Lemma cost_chart_failure_aborts_run_witness :
  existsb has_efficiency (rows (read_table [])) = false /\
  exists e,
    (rows (read_table []) = [] -> e = IndexError)
    /\ outcome (run (plot_cost_effectiveness "results") data_empty_baseline)
       = Raised e
    /\ store (final (run (plot_cost_effectiveness "results")
                         data_empty_baseline))
       = with_efficiency data_empty_baseline (read_table [])
    /\ filter is_savefig
         (trace (final (run (plot_cost_effectiveness "results")
                            data_empty_baseline))) = []
    /\ outcome (run (render_all "results") data_empty_baseline) = Raised e
    /\ filter is_savefig
         (trace (final (run (render_all "results") data_empty_baseline)))
       = [SaveFig (path_join "results" "r_vs_n_comparison.png")]
    /\ filter is_open
         (trace (final (run (render_all "results") data_empty_baseline))) = [].
Proof.
  split; [reflexivity|].
  exact (cost_chart_failure_aborts_run data_empty_baseline "results"
           (read_table []) eq_refl eq_refl).
Defined.

(** ** The report *)



Lemma report_front_writer (data : ResultSet) (file : string) {A}
      (rest : M A) o t :
  writer rest o t ->
  writer (emit (OpenW file) ;;
          for_each report_header write ;;
          for_each (sorted_items data) (fun '(b_value, df) =>
            for_each (table_section b_value df) write) ;;
          for_each recommendations_header write ;;
          rest)
         o (OpenW file :: map FWrite (report_front data) ++ t).
Proof.
  intros Hrest. unfold report_front.
  apply (writer_bind _ _ tt [OpenW file]); [apply writer_emit|].
  rewrite !map_app, <- !app_assoc.
  apply (writer_bind _ _ tt); [apply writer_write_all|].
  apply (writer_bind _ _ tt).
  { rewrite <- flat_map_writes. apply writer_for_each.
    intros [b df]. apply writer_write_all. }
  apply (writer_bind _ _ tt); [apply writer_write_all | exact Hrest].
Qed.




(** When the baseline has rows within the cap but none of them has an
    efficiency (each has [N = 0] and [R_min = 0]), report generation
    raises at the search for the optimum: the ResultSet is as before, the
    file is left holding the title, the per-table blocks and the
    recommendations banner only, and the line announcing the saved report
    is not printed. *)
Theorem report_truncated_without_valid_efficiency
  (data : ResultSet) (out : string) (df_base : DataFrame)
  (Hbase : dict_get baseline_key data = Some df_base)
  (Hrows : df_empty (df_filter within_cap df_base) = false)
  (Hnone : existsb has_efficiency (rows (df_filter within_cap df_base))
           = false) :
  exists e,
    run (generate_summary_report out) data =
      (Raised e,
       mkWorld data
         (OpenW (path_join out "analysis_report.txt")
          :: map FWrite (report_front data))).
Proof.
  exists ValueError. apply runs_to_run.
  unfold generate_summary_report. cbv zeta. apply runs_to_get.
  apply runs_to_bind_raised. apply runs_to_writer. unfold write_report.
  replace (map FWrite (report_front data))
    with (map FWrite (report_front data) ++ []) by apply app_nil_r.
  apply report_front_writer. apply writer_bind_raised.
  unfold optimal_section. rewrite Hbase, Hrows.
  rewrite (loc_idxmax_missing _ Hnone). apply writer_raise.
Qed.

Lemma report_truncated_without_valid_efficiency_witness :
  existsb has_efficiency (rows (df_filter within_cap (read_table [mkRow 0 0 1])))
    = false /\
  exists e,
    run (generate_summary_report "results") data_zero_row =
      (Raised e,
       mkWorld data_zero_row
         (OpenW (path_join "results" "analysis_report.txt")
          :: map FWrite (report_front data_zero_row))).
Proof.
  split; [reflexivity|].
  exact (report_truncated_without_valid_efficiency data_zero_row "results"
           (read_table [mkRow 0 0 1]) eq_refl eq_refl eq_refl).
Defined.

(** ** The loader: failures and keys *)

Lemma load_loop_read_failure (dir : Directory) (pre post : list string)
      (name n : string) (e : Exn) :
  readable dir pre ->
  decoded_key name <> None ->
  find (fun f => String.eqb (fst f) name) dir = Some (n, Raised e) ->
  forall data,
    writer (load_loop dir (pre ++ name :: post) data) (Raised e)
           (map Print (map (load_message dir) pre)).
Proof.
  intros Hread Hdec Hfind. induction pre as [|p pre IH]; intros data.
  - cbn [app load_loop map]. fold (decoded_key name).
    destruct (decoded_key name) as [k|]; [|congruence].
    apply writer_bind_raised. unfold read_csv. rewrite Hfind.
    apply writer_raise.
  - assert (Hrest : readable dir pre).
    { intros m Hm. apply Hread. now right. }
    cbn [app load_loop map]. unfold load_message at 1.
    pose proof (Hread p (or_introl eq_refl)) as Hp.
    fold (decoded_key p).
    destruct (decoded_key p) as [k|] eqn:Ek.
    + destruct (table_of dir p) as [df|] eqn:Et;
        [|exfalso; now apply Hp].
      assert (Hcsv : writer (read_csv dir p) (Returned df) []).
      { unfold read_csv. unfold table_of in Et.
        destruct (find (fun f => String.eqb (fst f) p) dir)
          as [[m [df'|e']]|]; try discriminate.
        injection Et as ->. apply writer_ret. }
      apply (writer_bind _ _ df [] _ (_ :: _)); [exact Hcsv|].
      apply (writer_bind _ _ tt [_]); [apply writer_emit|].
      apply (IH Hrest).
    + apply (writer_bind _ _ tt [_]); [apply writer_emit|].
      apply (IH Hrest).
Qed.

(** The loader catches only the failure of [float]: when a file whose
    name decodes cannot be parsed, [pd.read_csv]'s exception leaves the
    loader (and [main], which does not catch it either) after the lines for
    the files before it, in name order, have been printed; the files after
    it are not looked at and no chart or report is produced. *)
Theorem loader_read_failure_propagates
  (results_dir : string) (dir : Directory) (d0 : ResultSet)
  (pre post : list string) (name n : string) (e : Exn)
  (Horder : sorted_names (glob_csv dir) = pre ++ name :: post)
  (Hpre : readable dir pre)
  (Hdec : decoded_key name <> None)
  (Hfail : find (fun f => String.eqb (fst f) name) dir = Some (n, Raised e)) :
  run (load_calibration_data results_dir dir) d0 =
    (Raised e, mkWorld d0 (map Print (map (load_message dir) pre)))
  /\ (forall prog more fs, fs results_dir = Some dir ->
        outcome (run (main (prog :: results_dir :: more) fs) d0) = Raised e
        /\ store (final (run (main (prog :: results_dir :: more) fs) d0)) = d0
        /\ forallb is_print
             (trace (final (run (main (prog :: results_dir :: more) fs) d0)))
           = true).
Proof.
  assert (Hload : writer (load_calibration_data results_dir dir) (Raised e)
                         (map Print (map (load_message dir) pre))).
  { unfold load_calibration_data. cbv zeta.
    destruct (glob_csv dir) as [|f fs] eqn:Eg.
    { cbn in Horder. destruct pre; discriminate. }
    apply writer_bind_raised. rewrite Horder.
    now apply load_loop_read_failure with n. }
  split.
  - unfold run. now rewrite Hload.
  - intros prog more fs Hfs.
    assert (Hmain : writer (main (prog :: results_dir :: more) fs) (Raised e)
              ([Print (nl ++ str_repeat "=" 60)%string;
                Print " MangoNeado - Análisis de Resultados";
                Print (str_repeat "=" 60 ++ nl)%string;
                Print "Cargando datos de calibración..."]
               ++ map Print (map (load_message dir) pre))).
    { unfold main. rewrite Hfs.
      apply (writer_bind _ _ tt [_] _ (_ :: _)); [apply writer_emit|].
      apply (writer_bind _ _ tt [_] _ (_ :: _)); [apply writer_emit|].
      apply (writer_bind _ _ tt [_] _ (_ :: _)); [apply writer_emit|].
      apply (writer_bind _ _ tt [_] _ _); [apply writer_emit|].
      apply writer_bind_raised. exact Hload. }
    unfold run. rewrite Hmain. cbn [outcome final fst snd store trace app].
    repeat split. rewrite forallb_forall. intros ev Hev.
    destruct Hev as [<-|[<-|[<-|[<-|Hev]]]]; try reflexivity.
    apply in_map_iff in Hev. destruct Hev as (s & <- & _). reflexivity.
Qed.

Lemma loader_read_failure_propagates_witness :
  sorted_names (glob_csv dir_unreadable)
    = ["r_vs_n_B0.000.csv"] ++ "r_vs_n_B0.050.csv" :: ["r_vs_n_B0.100.csv"]
  /\ run (load_calibration_data "results" dir_unreadable) [] =
       (Raised ReadError,
        mkWorld [] [Print "✓ Cargado: r_vs_n_B0.000.csv (3 puntos)"]).
Proof.
  split; [reflexivity|].
  refine (proj1 (loader_read_failure_propagates "results" dir_unreadable []
                   ["r_vs_n_B0.000.csv"] ["r_vs_n_B0.100.csv"]
                   "r_vs_n_B0.050.csv" "r_vs_n_B0.050.csv" ReadError
                   eq_refl _ _ eq_refl)).
  - intros m [<-|[]] _. vm_compute. discriminate.
  - vm_compute. discriminate.
Defined.

Lemma dict_set_Forall_key (Q : PyFloat -> Prop) k v d :
  Forall (fun x => Q (fst x)) d -> Q k ->
  Forall (fun x => Q (fst x)) (dict_set k v d).
Proof.
  intros Hd Hk. induction Hd as [|[k1 v1] d H1 Hd IH]; cbn.
  - now repeat constructor.
  - destruct (feqb k1 k); constructor; auto.
Qed.

Lemma dict_set_distinct k v d : distinct_keys d -> distinct_keys (dict_set k v d).
Proof.
  unfold distinct_keys.
  induction 1 as [|[k1 v1] d H1 Hd IH]; cbn.
  - repeat constructor.
  - destruct (feqb k1 k) eqn:E.
    + constructor; assumption.
    + constructor; [|exact IH].
      apply (dict_set_Forall_key (fun k' => feqb k1 k' = false)); assumption.
Qed.

Lemma dict_set_length k v d :
  (List.length (dict_set k v d) <= S (List.length d))%nat.
Proof.
  induction d as [|[k1 v1] d IH]; cbn; [lia|].
  destruct (feqb k1 k); cbn; lia.
Qed.

Lemma store_entries_distinct es d :
  distinct_keys d -> distinct_keys (store_entries es d).
Proof.
  revert d. induction es as [|x es IH]; intros d Hd; cbn; [exact Hd|].
  apply IH. now apply dict_set_distinct.
Qed.

Lemma store_entries_Forall_key (Q : PyFloat -> Prop) es d :
  Forall (fun x => Q (fst x)) d -> Forall (fun x => Q (fst x)) es ->
  Forall (fun x => Q (fst x)) (store_entries es d).
Proof.
  revert d. induction es as [|x es IH]; intros d Hd Hes; cbn; [exact Hd|].
  inversion Hes; subst. apply IH; [|assumption].
  now apply dict_set_Forall_key.
Qed.

Lemma store_entries_length es d :
  (List.length (store_entries es d) <= List.length d + List.length es)%nat.
Proof.
  revert d. induction es as [|x es IH]; intros d; cbn; [lia|].
  specialize (IH (dict_set (fst x) (snd x) d)).
  pose proof (dict_set_length (fst x) (snd x) d).
  unfold store_entries in IH. lia.
Qed.

Lemma entries_length dir (files : list string) :
  (List.length (flat_map (entry_of dir) files) <= List.length files)%nat.
Proof.
  induction files as [|f files IH]; cbn; [lia|].
  rewrite length_app. unfold entry_of at 1.
  destruct (decoded_key f), (table_of dir f); cbn; lia.
Qed.

Lemma entries_keys_decoded dir (files : list string) :
  Forall (fun x => exists name, In name files /\ decoded_key name = Some (fst x))
         (flat_map (entry_of dir) files).
Proof.
  apply Forall_flat_map, Forall_forall. intros name Hin.
  unfold entry_of. destruct (decoded_key name) as [k|] eqn:Ek; [|constructor].
  destruct (table_of dir name); repeat constructor.
  exists name. auto.
Qed.

(** Whatever the file names are, the mapping the loader returns is a
    dictionary: its keys are pairwise different, each is the number
    decoded from the name of a matching file, and there are at most as many
    tables as matching files (two names that decode to equal numbers share
    one entry).  When no name decodes to NaN, the keys are as the report's
    ordering needs them. *)
Theorem loader_keys_stay_distinct
  (results_dir : string) (dir : Directory) (d0 : ResultSet)
  (Hsome : glob_csv dir <> [])
  (Hread : readable dir (glob_csv dir)) :
  exists data,
    outcome (run (load_calibration_data results_dir dir) d0)
      = Returned (Some data)
    /\ distinct_keys data
    /\ (List.length data <= List.length (glob_csv dir))%nat
    /\ (forall k df, In (k, df) data ->
          exists name, In name (glob_csv dir) /\ decoded_key name = Some k)
    /\ ((forall name, In name (glob_csv dir) -> decoded_key name <> Some NaN) ->
        valid_keys data).
Proof.
  exists (store_entries (loaded_entries dir) []).
  rewrite (load_run results_dir dir d0 Hsome Hread).
  assert (Hkeys : Forall (fun x => exists name, In name (glob_csv dir)
                                  /\ decoded_key name = Some (fst x))
                         (store_entries (loaded_entries dir) [])).
  { apply (store_entries_Forall_key
             (fun k => exists name, In name (glob_csv dir)
                                    /\ decoded_key name = Some k));
      [constructor|].
    eapply Forall_impl; [|apply entries_keys_decoded].
    intros x (name & Hin & Hk). exists name. split; [|exact Hk].
    eapply Permutation_in; [apply sorted_names_perm | exact Hin]. }
  assert (Hdist : distinct_keys (store_entries (loaded_entries dir) [])).
  { apply store_entries_distinct. constructor. }
  split; [reflexivity|]. split; [exact Hdist|]. split; [|split].
  - pose proof (store_entries_length (loaded_entries dir) []) as H1.
    pose proof (entries_length dir (sorted_names (glob_csv dir))) as H2.
    pose proof (Permutation_length (sorted_names_perm (glob_csv dir))) as H3.
    unfold loaded_entries in *. cbn in H1. lia.
  - intros k df Hin. rewrite Forall_forall in Hkeys.
    exact (Hkeys _ Hin).
  - intros Hnan. split; [|exact Hdist].
    unfold no_nan_key, keys. apply Forall_map.
    eapply Forall_impl; [|exact Hkeys].
    intros [k df] (name & Hin & Hk). cbn in *.
    destruct k; try reflexivity. exfalso. now apply (Hnan name).
Qed.

Lemma loader_keys_stay_distinct_witness :
  glob_csv dir_same_key <> [] /\
  exists data,
    outcome (run (load_calibration_data "results" dir_same_key) [])
      = Returned (Some data)
    /\ distinct_keys data
    /\ (List.length data <= List.length (glob_csv dir_same_key))%nat
    /\ (forall k df, In (k, df) data ->
          exists name, In name (glob_csv dir_same_key)
                       /\ decoded_key name = Some k)
    /\ ((forall name, In name (glob_csv dir_same_key) ->
                      decoded_key name <> Some NaN) ->
        valid_keys data).
Proof.
  assert (Hne : glob_csv dir_same_key <> []) by (vm_compute; discriminate).
  split; [exact Hne|].
  refine (loader_keys_stay_distinct "results" dir_same_key [] Hne _).
  intros name Hin Hdec. vm_compute in Hin.
  destruct Hin as [<-|[<-|[]]]; vm_compute; discriminate.
Defined.

(** Two files whose names decode to equal numbers: one entry, holding the
    table of the file later in name order under the key of the earlier. *)
Lemma loader_later_file_replaces :
  run (load_calibration_data "results" dir_same_key) [] =
    (Returned (Some [(Fin 0, sample_b005)]),
     mkWorld [] [Print "✓ Cargado: r_vs_n_B0.0.csv (3 puntos)";
                 Print "✓ Cargado: r_vs_n_B0.00.csv (3 puntos)"]).
Proof. reflexivity. Qed.







(** ** The orchestrator: early exits *)

Lemma load_nothing_decodes (results_dir : string) (dir : Directory) :
  (forall name, In name (glob_csv dir) -> decoded_key name = None) ->
  exists loaded t,
    writer (load_calibration_data results_dir dir) (Returned loaded) t
    /\ (loaded = None \/ loaded = Some [])
    /\ forallb is_print t = true.
Proof.
  intros Hnone. unfold load_calibration_data. cbv zeta.
  destruct (glob_csv dir) as [|f fs] eqn:Eg.
  - exists None, [Print ("Error: No se encontraron archivos CSV en "
                         ++ results_dir)%string].
    split; [|split; [now left | reflexivity]].
    apply (writer_bind _ _ tt [_] _ []); [apply writer_emit | apply writer_ret].
  - assert (Hn : forall name, In name (sorted_names (f :: fs)) ->
                              decoded_key name = None).
    { intros name Hin. apply Hnone.
      eapply Permutation_in; [apply sorted_names_perm | exact Hin]. }
    assert (Hread : readable dir (sorted_names (f :: fs))).
    { intros name Hin Hdec. exfalso. apply Hdec. now apply Hn. }
    exists (Some []), (map Print (map (load_message dir)
                                      (sorted_names (f :: fs)))).
    split; [|split; [now right|]].
    + replace (map Print (map (load_message dir) (sorted_names (f :: fs))))
        with (map Print (map (load_message dir) (sorted_names (f :: fs)))
              ++ []) by apply app_nil_r.
      apply (writer_bind _ _ (store_entries
                                (flat_map (entry_of dir)
                                          (sorted_names (f :: fs))) []));
        [apply (load_loop_run dir _ Hread [])|].
      replace (flat_map (entry_of dir) (sorted_names (f :: fs)))
        with (@nil (PyFloat * DataFrame)); [apply writer_ret|].
      symmetry. induction (sorted_names (f :: fs)) as [|x l IH];
        [reflexivity|].
      cbn [flat_map]. unfold entry_of at 1.
      rewrite (Hn x (or_introl eq_refl)). cbn [app].
      apply IH.
      * intros name Hin. apply Hn. now right.
      * intros name Hin Hdec. apply Hread; [now right | exact Hdec].
    + rewrite forallb_forall. intros ev Hev.
      apply in_map_iff in Hev. destruct Hev as (s & <- & _). reflexivity.
Qed.

(** [main] ends with exit status 1, having only printed (no chart, no
    report, the ResultSet untouched), in each of these cases: fewer than
    two command-line words (it prints the two usage lines); a results
    directory that does not exist; a directory in which no matching file
    has a name that decodes, whether there is no matching file at all or
    each one was skipped with its warning. *)
Theorem main_exits_with_status_1 (fs : FileSystem) (d0 : ResultSet) :
  (forall argv, (List.length argv < 2)%nat ->
      run (main argv fs) d0 =
        (Raised (SystemExit 1),
         mkWorld d0 [Print "Uso: python3 plot_results.py <results_dir>";
                     Print "Ejemplo: python3 plot_results.py results/"]))
  /\ (forall prog results_dir more, fs results_dir = None ->
        run (main (prog :: results_dir :: more) fs) d0 =
          (Raised (SystemExit 1),
           mkWorld d0 [Print ("Error: Directorio " ++ results_dir
                              ++ " no existe")%string]))
  /\ (forall prog results_dir more dir,
        fs results_dir = Some dir ->
        (forall name, In name (glob_csv dir) -> decoded_key name = None) ->
        exists t,
          run (main (prog :: results_dir :: more) fs) d0 =
            (Raised (SystemExit 1),
             mkWorld d0 (main_banner ++ t ++ [no_data_error]))
          /\ forallb is_print t = true).
Proof.
  split; [|split].
  - intros [|a [|b argv]] Hlen; try reflexivity. cbn in Hlen. lia.
  - intros prog results_dir more Hfs. unfold run, main. rewrite Hfs.
    reflexivity.
  - intros prog results_dir more dir Hfs Hnone.
    destruct (load_nothing_decodes results_dir dir Hnone)
      as (loaded & t & Hload & Hcase & Hprints).
    exists t. split; [|exact Hprints].
    apply runs_to_run, runs_to_writer. unfold main. rewrite Hfs.
    unfold main_banner.
    apply (writer_bind _ _ tt [_] _ (_ :: _)); [apply writer_emit|].
    apply (writer_bind _ _ tt [_] _ (_ :: _)); [apply writer_emit|].
    apply (writer_bind _ _ tt [_] _ (_ :: _)); [apply writer_emit|].
    apply (writer_bind _ _ tt [_] _ _); [apply writer_emit|].
    apply (writer_bind _ _ loaded); [exact Hload|].
    destruct Hcase as [-> | ->];
      (apply (writer_bind _ _ tt [_] _ []);
       [apply writer_emit | apply writer_raise]).
Qed.

Lemma main_exits_with_status_1_witness :
  (forall name, In name (glob_csv dir_undecodable) -> decoded_key name = None)
  /\ exists t,
       run (main ["plot_results.py"; "results"] (fun _ => Some dir_undecodable))
           [] =
         (Raised (SystemExit 1),
          mkWorld [] (main_banner ++ t ++ [no_data_error]))
       /\ forallb is_print t = true.
Proof.
  assert (H : forall name, In name (glob_csv dir_undecodable) ->
                           decoded_key name = None).
  { intros name Hin. vm_compute in Hin.
    destruct Hin as [<-|[<-|[]]]; reflexivity. }
  split; [exact H|].
  exact (proj2 (proj2 (main_exits_with_status_1
                         (fun _ => Some dir_undecodable) []))
               "plot_results.py" "results" [] dir_undecodable eq_refl H).
Defined.

(** ** What follows the cost-effectiveness chart does not see its column *)

Lemma same_rows_refl d : same_rows d d.
Proof. induction d; constructor; auto. Qed.

Lemma with_efficiency_same_rows data df0 :
  dict_get baseline_key data = Some df0 ->
  same_rows data (with_efficiency data df0).
Proof.
  unfold with_efficiency. induction data as [|[k1 v1] d IH]; cbn;
    [discriminate|].
  destruct (feqb k1 baseline_key).
  - intros [= ->]. constructor; [now split | apply same_rows_refl].
  - intros H. constructor; [now split | now apply IH].
Qed.

Lemma map_related {A B} (R : A -> A -> Prop) (f : A -> B) l l' :
  Forall2 R l l' -> (forall x x', R x x' -> f x = f x') -> map f l = map f l'.
Proof.
  intros H Hf. induction H as [|x x' l l' Hx _ IH]; cbn; [reflexivity|].
  now rewrite (Hf x x' Hx), IH.
Qed.

Lemma flat_map_related {A B} (R : A -> A -> Prop) (f g : A -> list B) l l' :
  Forall2 R l l' -> (forall x x', R x x' -> f x = g x') ->
  flat_map f l = flat_map g l'.
Proof.
  intros H Hf. induction H as [|x x' l l' Hx _ IH]; cbn; [reflexivity|].
  now rewrite (Hf x x' Hx), IH.
Qed.

Lemma for_each_related {A} (R : A -> A -> Prop) (body : A -> M unit) l l' :
  Forall2 R l l' -> (forall x x', R x x' -> body x = body x') ->
  for_each l body = for_each l' body.
Proof.
  intros H Hf. induction H as [|x x' l l' Hx _ IH]; cbn; [reflexivity|].
  now rewrite (Hf x x' Hx), IH.
Qed.

Lemma insert_item_same_rows x x' l l' :
  fst x = fst x' /\ rows (snd x) = rows (snd x') ->
  same_rows l l' -> same_rows (insert_item x l) (insert_item x' l').
Proof.
  intros Hx H. induction H as [|y y' l l' Hy Hl IH]; cbn.
  - repeat constructor; apply Hx.
  - destruct Hx as [Hk Hr], Hy as [Hk' Hr']. rewrite <- Hk, <- Hk'.
    destruct (fltb (fst y) (fst x)).
    + constructor; [now split | apply IH].
    + constructor; [now split|]. constructor; [now split | exact Hl].
Qed.

Lemma sorted_items_same_rows d d' :
  same_rows d d' -> same_rows (sorted_items d) (sorted_items d').
Proof.
  induction 1 as [|x x' d d' Hx _ IH]; cbn; [constructor|].
  now apply insert_item_same_rows.
Qed.

Lemma dict_get_same_rows k d d' :
  same_rows d d' ->
  match dict_get k d, dict_get k d' with
  | Some a, Some b => rows a = rows b
  | None, None => True
  | _, _ => False
  end.
Proof.
  induction 1 as [|[k1 v1] [k2 v2] d d' [Hk Hr] _ IH]; cbn; [exact I|].
  cbn in Hk, Hr. subst k2. destruct (feqb k1 k); [exact Hr | exact IH].
Qed.

Lemma table_section_rows b (df df' : DataFrame) :
  rows df = rows df' -> table_section b df = table_section b df'.
Proof.
  destruct df as [r e], df' as [r' e']. cbn. intros <-. reflexivity.
Qed.

Lemma r_min_at_rows n (df df' : DataFrame) :
  rows df = rows df' -> r_min_at n df = r_min_at n df'.
Proof. unfold r_min_at. now intros <-. Qed.

Lemma overhead_series_rows (b b' df df' : DataFrame) :
  rows b = rows b' -> rows df = rows df' ->
  overhead_series b df = overhead_series b' df'
  /\ n_common b df = n_common b' df'.
Proof.
  destruct b as [rb eb], b' as [rb' eb'], df as [r e], df' as [r' e'].
  cbn [rows]. intros <- <-. unfold overhead_series, n_common. cbn [rows].
  rewrite !overhead_rows_spec. split; reflexivity.
Qed.

Lemma optimal_section_same_rows d d' :
  same_rows d d' -> optimal_section d = optimal_section d'.
Proof.
  intros H. unfold optimal_section.
  pose proof (dict_get_same_rows baseline_key d d' H) as Hg.
  destruct (dict_get baseline_key d) as [[r e]|],
           (dict_get baseline_key d') as [[r' e']|]; try easy.
  cbn in Hg. subst r'. reflexivity.
Qed.

Lemma redundancy_section_same_rows d d' :
  same_rows d d' -> redundancy_section d = redundancy_section d'.
Proof.
  intros H. unfold redundancy_section.
  pose proof (dict_get_same_rows baseline_key d d' H) as Hg.
  pose proof (dict_get_same_rows (Fin (1 # 20)) d d' H) as Hg5.
  destruct (dict_get baseline_key d) as [a|],
           (dict_get baseline_key d') as [a'|]; try easy;
  destruct (dict_get (Fin (1 # 20)) d) as [b|],
           (dict_get (Fin (1 # 20)) d') as [b'|]; try easy.
  now rewrite (r_min_at_rows n_compare a a' Hg),
              (r_min_at_rows n_compare b b' Hg5).
Qed.

Lemma write_report_same_rows d d' file :
  same_rows d d' -> write_report d file = write_report d' file.
Proof.
  intros H. unfold write_report.
  rewrite (optimal_section_same_rows d d' H).
  rewrite (redundancy_section_same_rows d d' H).
  rewrite (for_each_related _ _ _ _ (sorted_items_same_rows d d' H)).
  - reflexivity.
  - intros [b df] [b' df'] [Hk Hr]. cbn in Hk, Hr. subst b'.
    now rewrite (table_section_rows b df df' Hr).
Qed.

Lemma redundancy_trace_same_rows d d' out :
  same_rows d d' -> redundancy_trace d out = redundancy_trace d' out.
Proof.
  intros H. pose proof (sorted_items_same_rows d d' H) as Hs.
  unfold redundancy_trace. f_equal; [|f_equal].
  - unfold sample_events.
    destruct H as [|x x' l l' Hx Hl]; [reflexivity|].
    apply flat_map_ext. intros n. unfold sample_curve.
    assert (Hr : r_values_at n (sorted_items (x :: l))
                 = r_values_at n (sorted_items (x' :: l'))).
    { unfold r_values_at. eapply map_related; [exact Hs|].
      intros [k df] [k' df'] [_ Hr]. cbn in Hr.
      now rewrite (r_min_at_rows n df df' Hr). }
    assert (Hk : keys (sorted_items (x :: l)) = keys (sorted_items (x' :: l'))).
    { unfold keys. eapply map_related; [exact Hs|].
      now intros a b [Hab _]. }
    now rewrite Hr, Hk.
  - unfold overhead_events.
    pose proof (dict_get_same_rows baseline_key d d' H) as Hg.
    destruct (dict_get baseline_key d) as [a|],
             (dict_get baseline_key d') as [a'|]; try easy.
    rewrite (flat_map_related _ (overhead_curve a) (overhead_curve a')
               _ _ Hs); [reflexivity|].
    intros [k df] [k' df'] [Hk Hr]. cbn in Hk, Hr. subst k'.
    unfold overhead_curve. cbn [fst snd].
    destruct (overhead_series_rows a a' df df' Hg Hr) as [-> ->].
    reflexivity.
Qed.

(** The column that the cost-effectiveness chart adds to the baseline
    table does not reach the outputs rendered after it: on the ResultSet it
    leaves behind, the redundancy chart draws the same events and the
    report has the same outcome, the same writes and the same text as on
    the ResultSet before the chart ran. *)
Theorem later_outputs_ignore_efficiency_column
  (data : ResultSet) (out : string) (df0 : DataFrame)
  (Hbase : dict_get baseline_key data = Some df0) :
  trace (final (run (plot_redundancy_analysis out) (with_efficiency data df0)))
    = trace (final (run (plot_redundancy_analysis out) data))
  /\ outcome (run (generate_summary_report out) (with_efficiency data df0))
     = outcome (run (generate_summary_report out) data)
  /\ trace (final (run (generate_summary_report out)
                       (with_efficiency data df0)))
     = trace (final (run (generate_summary_report out) data))
  /\ file_content
       (trace (final (run (generate_summary_report out)
                          (with_efficiency data df0))))
     = file_content (trace (final (run (generate_summary_report out) data))).
Proof.
  pose proof (with_efficiency_same_rows data df0 Hbase) as Hs.
  set (file := path_join out "analysis_report.txt").
  split.
  - rewrite !(runs_to_run _ _ _ _ _ (redundancy_chart_runs _ out)).
    cbn [final snd trace]. symmetry. now apply redundancy_trace_same_rows.
  - assert (Hall : has_writer
                     (write_report data file ;;
                      print ("✓ Guardado: " ++ file)%string)).
    { apply has_writer_bind; [|intros _; apply has_writer_emit].
      destruct (write_report_writer data file) as (o & rest & Hw).
      eexists _, _. exact Hw. }
    destruct Hall as (o & t & Ht).
    destruct (report_run_writer data out o t Ht) as [Ho Hf].
    assert (Ht' : writer (write_report (with_efficiency data df0) file ;;
                          print ("✓ Guardado: " ++ file)%string) o t).
    { now rewrite <- (write_report_same_rows data _ file Hs). }
    destruct (report_run_writer _ out o t Ht') as [Ho' Hf'].
    rewrite Ho, Ho', Hf, Hf'. now repeat split.
Qed.

Lemma later_outputs_ignore_efficiency_column_witness :
  dict_get baseline_key data_both = Some sample_base /\
  file_content
    (trace (final (run (generate_summary_report "results")
                       (with_efficiency data_both sample_base))))
  = file_content
      (trace (final (run (generate_summary_report "results") data_both))).
Proof.
  split; [reflexivity|].
  exact (proj2 (proj2 (proj2
           (later_outputs_ignore_efficiency_column data_both "results"
              sample_base eq_refl)))).
Defined.

(** ** The whole rendering sequence *)













(** ** The orchestrator renders what the loader returns *)










